(** * Schema layer of src/app/models.py

    The module declares SQLModel classes: persistent entities
    ([table=True]) and non-persistent request/response schemas
    ([table=False]).  The development below transcribes every class with
    the keyword arguments of each [Field(...)], gives the construction
    semantics that SQLModel attaches to such declarations, and proves the
    properties of the data-model specification against it.  The layer that
    stores the entities is not part of the module: where a property speaks
    of what is written and read back, the column store is modelled from the
    words of the specification (part Persistence). *)

From Stdlib Require Import ZArith NArith Ascii String List Bool Lia.
From stdpp Require Import base option list strings gmap.

Local Open Scope string_scope.
Local Open Scope Z_scope.

(** ** Enumerations (models.py, lines 9-23) *)

Inductive ReportType := INDUSTRY | COMPANY.
Inductive UserRole := ADMIN | OFFICIAL | VIEWER.
Inductive InteractionType := QUESTION | SUMMARY | ANALYSIS.

(** The three [str, Enum] classes. *)
Inductive enum_class := ReportType_cls | UserRole_cls | InteractionType_cls.

(** A member of one of the three enumerations. *)
Inductive enum_member :=
| EReportType (r : ReportType)
| EUserRole (r : UserRole)
| EInteractionType (i : InteractionType).

Definition ReportType_value (r : ReportType) : string :=
  match r with INDUSTRY => "industry" | COMPANY => "company" end.

Definition UserRole_value (r : UserRole) : string :=
  match r with ADMIN => "admin" | OFFICIAL => "official" | VIEWER => "viewer" end.

Definition InteractionType_value (i : InteractionType) : string :=
  match i with
  | QUESTION => "question" | SUMMARY => "summary" | ANALYSIS => "analysis"
  end.

Definition member_value (e : enum_member) : string :=
  match e with
  | EReportType r => ReportType_value r
  | EUserRole r => UserRole_value r
  | EInteractionType i => InteractionType_value i
  end.

Definition member_class (e : enum_member) : enum_class :=
  match e with
  | EReportType _ => ReportType_cls
  | EUserRole _ => UserRole_cls
  | EInteractionType _ => InteractionType_cls
  end.

(** Members in declaration order, as iterating the Enum class gives them. *)
Definition enum_members (c : enum_class) : list enum_member :=
  match c with
  | ReportType_cls => [EReportType INDUSTRY; EReportType COMPANY]
  | UserRole_cls => [EUserRole ADMIN; EUserRole OFFICIAL; EUserRole VIEWER]
  | InteractionType_cls =>
      [EInteractionType QUESTION; EInteractionType SUMMARY;
       EInteractionType ANALYSIS]
  end.

(** [Cls(s)]: the member whose value is [s], if any. *)
Definition enum_lookup (c : enum_class) (s : string) : option enum_member :=
  find (fun e => String.eqb (member_value e) s) (enum_members c).

(** ** Exact decimals

    Python's [decimal.Decimal] is a sign, a coefficient and a power of ten;
    its value is [(-1)^sign * coefficient * 10^exponent]. *)

Record Decimal := mkDecimal { dsign : bool; coefficient : N; exponent : Z }.

(** Number of decimal digits of the coefficient ([len(digit_tuple)]);
    zero has the one digit 0. *)
Fixpoint count_digits (fuel : nat) (n : N) : nat :=
  match fuel with
  | O => 1%nat
  | S k => if (n <? 10)%N then 1%nat else S (count_digits k (n / 10)%N)
  end.

Definition num_digits (n : N) : nat := count_digits (N.to_nat (N.size n)) n.

(** ** Regular expressions

    The fragment of Python's pattern language that models.py uses:
    character classes, literals, concatenation and [+]. *)

Inductive regexp :=
| RNever                                        (* matches nothing *)
| REps                                          (* matches the empty string *)
| RClass (ranges : list (ascii * ascii))        (* [lo-hi...] *)
| RCat (r1 r2 : regexp)
| RAlt (r1 r2 : regexp)
| RStar (r : regexp).

Definition RChar (c : ascii) : regexp := RClass [(c, c)].
Definition RPlus (r : regexp) : regexp := RCat r (RStar r).

Definition in_class (ranges : list (ascii * ascii)) (c : ascii) : bool :=
  existsb (fun '(lo, hi) =>
             (nat_of_ascii lo <=? nat_of_ascii c)%nat
             && (nat_of_ascii c <=? nat_of_ascii hi)%nat) ranges.

Fixpoint nullable (r : regexp) : bool :=
  match r with
  | RNever => false
  | REps => true
  | RClass _ => false
  | RCat r1 r2 => nullable r1 && nullable r2
  | RAlt r1 r2 => nullable r1 || nullable r2
  | RStar _ => true
  end.

(** Derivative of [r] by the character [c]. *)
Fixpoint deriv (c : ascii) (r : regexp) : regexp :=
  match r with
  | RNever => RNever
  | REps => RNever
  | RClass ranges => if in_class ranges c then REps else RNever
  | RCat r1 r2 =>
      if nullable r1
      then RAlt (RCat (deriv c r1) r2) (deriv c r2)
      else RCat (deriv c r1) r2
  | RAlt r1 r2 => RAlt (deriv c r1) (deriv c r2)
  | RStar r1 => RCat (deriv c r1) (RStar r1)
  end.

(** Match of the whole string. *)
Fixpoint full_match (r : regexp) (s : string) : bool :=
  match s with
  | EmptyString => nullable r
  | String c s' => full_match (deriv c r) s'
  end.

(** The string without its final newline, when it ends with one. *)
Fixpoint strip_final_newline (s : string) : option string :=
  match s with
  | EmptyString => None
  | String c EmptyString =>
      if Ascii.eqb c "010" then Some EmptyString else None
  | String c s' => String c <$> strip_final_newline s'
  end.

(** [re.match] of a pattern written [^...$]: in Python [$] stands at the
    end of the string and also just before a newline that ends it. *)
Definition regex_match (r : regexp) (s : string) : bool :=
  full_match r s
  || match strip_final_newline s with
     | Some s' => full_match r s'
     | None => false
     end.

(** [a-zA-Z0-9] *)
Definition alnum : list (ascii * ascii) :=
  [("a", "z"); ("A", "Z"); ("0", "9")]%char.

(** [^[a-zA-Z0-9_.+-]+@[a-zA-Z0-9-]+\.[a-zA-Z0-9-.]+$] (models.py, line 32) *)
Definition email_regex : regexp :=
  RCat (RPlus (RClass (alnum ++ [("_", "_"); (".", "."); ("+", "+"); ("-", "-")]%char)))
  (RCat (RChar "@")
  (RCat (RPlus (RClass (alnum ++ [("-", "-")]%char)))
  (RCat (RChar ".")
        (RPlus (RClass (alnum ++ [("-", "-"); (".", ".")]%char)))))).

(** ** Python values that flow through the schemas *)

#[warnings="-register-all"]
Inductive value :=
| VNone
| VBool (b : bool)
| VInt (z : Z)
| VStr (s : string)
| VDecimal (d : Decimal)
| VDatetime (t : Z)
| VEnum (e : enum_member)
| VList (l : list value)
| VDict (d : list (string * value))
| VFloat (mantissa exponent2 : Z).            (* [mantissa * 2^exponent2] *)

(** ** Field declarations *)

(** Type annotations used in models.py. *)
Inductive annotation :=
| TInt | TStr | TBool | TDatetime | TDecimal
| TEnum (c : enum_class)
| TList (a : annotation)
| TDict                                   (* Dict[str, Any] *)
| TOptional (a : annotation).

(** Keyword arguments of [Field(...)] that occur in models.py. *)
Inductive field_kw :=
| default (v : value)
| default_factory_utcnow
| primary_key
| unique
| foreign_key (target : string)
| max_length (n : nat)
| min_length (n : nat)
| ge (z : Z)
| le (z : Z)
| regex (r : regexp)                       (* regex=r"..." *)
| decimal_places (n : nat)
| max_digits (n : nat)
| sa_column_JSON.                         (* sa_column=Column(JSON) *)

Record FieldInfo := fld {
  name : string;
  annot : annotation;
  kws : list field_kw
}.

Record Model := mkModel {
  class_name : string;
  tablename : option string;
  table : bool;
  fields : list FieldInfo;
  (* Relationship(back_populates=...) attributes: name, target class *)
  relationships : list (string * string)
}.

(** First keyword argument selected by [sel], if the call has one. *)
Fixpoint first_kw {A} (sel : field_kw -> option A) (ks : list field_kw)
  : option A :=
  match ks with
  | [] => None
  | k :: ks' =>
      match sel k with
      | Some a => Some a
      | None => first_kw sel ks'
      end
  end.

Definition get_default (ks : list field_kw) : option value :=
  first_kw (fun k => match k with default v => Some v | _ => None end) ks.

Definition has_default_factory (ks : list field_kw) : bool :=
  existsb (fun k => match k with default_factory_utcnow => true | _ => false end) ks.

Definition get_max_length (ks : list field_kw) : option nat :=
  first_kw (fun k => match k with max_length n => Some n | _ => None end) ks.

Definition get_min_length (ks : list field_kw) : option nat :=
  first_kw (fun k => match k with min_length n => Some n | _ => None end) ks.

Definition get_ge (ks : list field_kw) : option Z :=
  first_kw (fun k => match k with ge n => Some n | _ => None end) ks.

Definition get_le (ks : list field_kw) : option Z :=
  first_kw (fun k => match k with le n => Some n | _ => None end) ks.

Definition get_regex (ks : list field_kw) : option regexp :=
  first_kw (fun k => match k with regex r => Some r | _ => None end) ks.

Definition get_decimal_places (ks : list field_kw) : option nat :=
  first_kw (fun k => match k with decimal_places n => Some n | _ => None end) ks.

Definition get_max_digits (ks : list field_kw) : option nat :=
  first_kw (fun k => match k with max_digits n => Some n | _ => None end) ks.

Definition get_foreign_key (ks : list field_kw) : option string :=
  first_kw (fun k => match k with foreign_key t => Some t | _ => None end) ks.

Definition is_unique (ks : list field_kw) : bool :=
  existsb (fun k => match k with unique => true | _ => false end) ks.

Definition is_primary_key (ks : list field_kw) : bool :=
  existsb (fun k => match k with primary_key => true | _ => false end) ks.

(** ** The classes of models.py *)

Definition utcnow : field_kw := default_factory_utcnow.

(** Persistent models (stored in database) *)

Definition User : Model :=
  mkModel "User" (Some "users") true
    [ fld "id" (TOptional TInt) [default VNone; primary_key];
      fld "username" TStr [max_length 100; unique];
      fld "email" TStr [max_length 255; unique; regex email_regex];
      fld "full_name" TStr [max_length 200];
      fld "role" (TEnum UserRole_cls) [default (VEnum (EUserRole OFFICIAL))];
      fld "is_active" TBool [default (VBool true)];
      fld "password_hash" TStr [max_length 255];
      fld "created_at" TDatetime [utcnow];
      fld "last_login" (TOptional TDatetime) [default VNone] ]
    [ ("report_interactions", "ReportInteraction");
      ("search_history", "SearchHistory") ].

Definition APICredentials : Model :=
  mkModel "APICredentials" (Some "api_credentials") true
    [ fld "id" (TOptional TInt) [default VNone; primary_key];
      fld "service_name" TStr [max_length 100];
      fld "api_key" TStr [max_length 500];
      fld "api_secret" (TOptional TStr) [default VNone; max_length 500];
      fld "base_url" (TOptional TStr) [default VNone; max_length 500];
      fld "is_active" TBool [default (VBool true)];
      fld "created_at" TDatetime [utcnow];
      fld "updated_at" TDatetime [utcnow];
      fld "created_by_user_id" TInt [foreign_key "users.id"] ]
    [].

Definition IBISWorldReport : Model :=
  mkModel "IBISWorldReport" (Some "ibisworld_reports") true
    [ fld "id" (TOptional TInt) [default VNone; primary_key];
      fld "report_id" TStr [max_length 100; unique];
      fld "title" TStr [max_length 500];
      fld "report_type" (TEnum ReportType_cls) [];
      fld "industry_code" (TOptional TStr) [default VNone; max_length 50];
      fld "company_name" (TOptional TStr) [default VNone; max_length 300];
      fld "description" TStr [default (VStr ""); max_length 2000];
      fld "publication_date" (TOptional TDatetime) [default VNone];
      fld "report_url" (TOptional TStr) [default VNone; max_length 1000];
      fld "page_count" (TOptional TInt) [default VNone];
      fld "report_size_mb" (TOptional TDecimal)
          [default VNone; decimal_places 2; max_digits 10];
      fld "tags" (TList TStr) [default (VList []); sa_column_JSON];
      fld "is_cached" TBool [default (VBool false)];
      fld "cache_expiry" (TOptional TDatetime) [default VNone];
      fld "last_accessed" (TOptional TDatetime) [default VNone];
      fld "access_count" TInt [default (VInt 0)];
      fld "created_at" TDatetime [utcnow];
      fld "updated_at" TDatetime [utcnow] ]
    [ ("interactions", "ReportInteraction");
      ("search_results", "SearchResult") ].

#[warnings="-abstract-large-number"]
Definition ReportInteraction : Model :=
  mkModel "ReportInteraction" (Some "report_interactions") true
    [ fld "id" (TOptional TInt) [default VNone; primary_key];
      fld "user_id" TInt [foreign_key "users.id"];
      fld "report_id" TInt [foreign_key "ibisworld_reports.id"];
      fld "interaction_type" (TEnum InteractionType_cls) [];
      fld "question" (TOptional TStr) [default VNone; max_length 1000];
      fld "response" TStr [max_length 10000];
      fld "claude_model" TStr
          [max_length 100; default (VStr "claude-3-sonnet-20240229")];
      fld "tokens_used" (TOptional TInt) [default VNone];
      fld "response_time_ms" (TOptional TInt) [default VNone];
      fld "created_at" TDatetime [utcnow] ]
    [ ("user", "User"); ("report", "IBISWorldReport") ].

Definition SearchHistory : Model :=
  mkModel "SearchHistory" (Some "search_history") true
    [ fld "id" (TOptional TInt) [default VNone; primary_key];
      fld "user_id" TInt [foreign_key "users.id"];
      fld "search_query" TStr [max_length 500];
      fld "search_filters" TDict [default (VDict []); sa_column_JSON];
      fld "results_count" TInt [default (VInt 0)];
      fld "created_at" TDatetime [utcnow] ]
    [ ("user", "User"); ("search_results", "SearchResult") ].

Definition SearchResult : Model :=
  mkModel "SearchResult" (Some "search_results") true
    [ fld "id" (TOptional TInt) [default VNone; primary_key];
      fld "search_history_id" TInt [foreign_key "search_history.id"];
      fld "report_id" TInt [foreign_key "ibisworld_reports.id"];
      fld "relevance_score" (TOptional TDecimal)
          [default VNone; decimal_places 4; max_digits 10];
      fld "result_rank" TInt [default (VInt 0)] ]
    [ ("search_history", "SearchHistory"); ("report", "IBISWorldReport") ].

Definition ReportCache : Model :=
  mkModel "ReportCache" (Some "report_cache") true
    [ fld "id" (TOptional TInt) [default VNone; primary_key];
      fld "cache_key" TStr [max_length 255; unique];
      fld "cache_type" TStr [max_length 50];
      fld "cache_data" TDict [sa_column_JSON];
      fld "expires_at" TDatetime [];
      fld "created_at" TDatetime [utcnow];
      fld "hit_count" TInt [default (VInt 0)];
      fld "last_hit" (TOptional TDatetime) [default VNone] ]
    [].

Definition AuditLog : Model :=
  mkModel "AuditLog" (Some "audit_logs") true
    [ fld "id" (TOptional TInt) [default VNone; primary_key];
      fld "user_id" (TOptional TInt) [default VNone; foreign_key "users.id"];
      fld "action" TStr [max_length 100];
      fld "resource_type" (TOptional TStr) [default VNone; max_length 100];
      fld "resource_id" (TOptional TStr) [default VNone; max_length 255];
      fld "details" TDict [default (VDict []); sa_column_JSON];
      fld "ip_address" (TOptional TStr) [default VNone; max_length 45];
      fld "user_agent" (TOptional TStr) [default VNone; max_length 500];
      fld "created_at" TDatetime [utcnow] ]
    [].

(** Non-persistent schemas (for validation, forms, API requests/responses) *)

Definition UserCreate : Model :=
  mkModel "UserCreate" None false
    [ fld "username" TStr [max_length 100];
      fld "email" TStr [max_length 255];
      fld "full_name" TStr [max_length 200];
      fld "password" TStr [min_length 8; max_length 255];
      fld "role" (TEnum UserRole_cls) [default (VEnum (EUserRole OFFICIAL))] ]
    [].

Definition UserUpdate : Model :=
  mkModel "UserUpdate" None false
    [ fld "full_name" (TOptional TStr) [default VNone; max_length 200];
      fld "email" (TOptional TStr) [default VNone; max_length 255];
      fld "role" (TOptional (TEnum UserRole_cls)) [default VNone];
      fld "is_active" (TOptional TBool) [default VNone] ]
    [].

Definition UserLogin : Model :=
  mkModel "UserLogin" None false
    [ fld "username" TStr [max_length 100];
      fld "password" TStr [max_length 255] ]
    [].

Definition ReportSearch : Model :=
  mkModel "ReportSearch" None false
    [ fld "query" TStr [max_length 500];
      fld "report_type" (TOptional (TEnum ReportType_cls)) [default VNone];
      fld "industry_codes" (TList TStr) [default (VList [])];
      fld "publication_date_from" (TOptional TDatetime) [default VNone];
      fld "publication_date_to" (TOptional TDatetime) [default VNone];
      fld "limit" TInt [default (VInt 20); ge 1; le 100];
      fld "offset" TInt [default (VInt 0); ge 0] ]
    [].

Definition ReportInteractionCreate : Model :=
  mkModel "ReportInteractionCreate" None false
    [ fld "report_id" TInt [];
      fld "interaction_type" (TEnum InteractionType_cls) [];
      fld "question" (TOptional TStr) [default VNone; max_length 1000] ]
    [].

Definition APICredentialsCreate : Model :=
  mkModel "APICredentialsCreate" None false
    [ fld "service_name" TStr [max_length 100];
      fld "api_key" TStr [max_length 500];
      fld "api_secret" (TOptional TStr) [default VNone; max_length 500];
      fld "base_url" (TOptional TStr) [default VNone; max_length 500] ]
    [].

Definition APICredentialsUpdate : Model :=
  mkModel "APICredentialsUpdate" None false
    [ fld "api_key" (TOptional TStr) [default VNone; max_length 500];
      fld "api_secret" (TOptional TStr) [default VNone; max_length 500];
      fld "base_url" (TOptional TStr) [default VNone; max_length 500];
      fld "is_active" (TOptional TBool) [default VNone] ]
    [].

Definition ReportSummary : Model :=
  mkModel "ReportSummary" None false
    [ fld "id" TInt [];
      fld "report_id" TStr [];
      fld "title" TStr [];
      fld "report_type" (TEnum ReportType_cls) [];
      fld "industry_code" (TOptional TStr) [default VNone];
      fld "company_name" (TOptional TStr) [default VNone];
      fld "publication_date" (TOptional TStr) [default VNone];
      fld "last_accessed" (TOptional TStr) [default VNone];
      fld "access_count" TInt [];
      fld "is_cached" TBool [] ]
    [].

Definition InteractionHistory : Model :=
  mkModel "InteractionHistory" None false
    [ fld "interactions" (TList TDict) [default (VList [])];
      fld "total_count" TInt [];
      fld "user_name" TStr [];
      fld "report_title" TStr [] ]
    [].

Definition entities : list Model :=
  [User; APICredentials; IBISWorldReport; ReportInteraction; SearchHistory;
   SearchResult; ReportCache; AuditLog].

Definition schemas : list Model :=
  [UserCreate; UserUpdate; UserLogin; ReportSearch; ReportInteractionCreate;
   APICredentialsCreate; APICredentialsUpdate; ReportSummary;
   InteractionHistory].

Definition all_models : list Model := entities ++ schemas.

(** ** Construction semantics

    models.py only declares classes; what happens when one is instantiated
    is SQLModel's.  A class with [table=False] is validated by pydantic when
    it is constructed.  A class with [table=True] is built by
    [sqlmodel_table_construct]: the keyword arguments are stored as given,
    omitted fields take their default, and no validator runs, so that the
    ORM can create instances; validation of such a class runs only on
    request, through [model_validate].

    Input values are taken at the Python type of the annotation (a [str]
    for a string field, an [int] for an integer field, a [str] or a member
    for an enum field).  Two things pydantic does are left out, and no
    property below rests on them: it converts some inputs of another type
    (the string "50" for an integer field) where [validate_type] reports a
    type error, and it reports the bad items of a list one by one, each
    under its index, where [validate_type] reports the first under the name
    of the field.  Strings are sequences of 8-bit characters, their length
    the number of characters. *)

(** Kinds of validation error, named as pydantic names them. *)
Inductive error_type :=
| missing
| int_type | string_type | bool_type | datetime_type | decimal_type
| list_type | dict_type
| enum_error
| string_too_short | string_too_long | string_pattern_mismatch
| greater_than_equal | less_than_equal
| decimal_max_digits | decimal_max_places | decimal_whole_digits.

(** Outcome of a construction: the instance's attribute dictionary, or the
    errors of a [ValidationError], each with the field it is about. *)
Inductive result :=
| Ok (inst : gmap string value)
| ValidationError (errs : list (string * error_type)).

(** Type validation of one value against an annotation. *)
Fixpoint validate_type (a : annotation) (v : value) : error_type + value :=
  match a with
  | TInt => match v with VInt _ => inr v | _ => inl int_type end
  | TStr => match v with VStr _ => inr v | _ => inl string_type end
  | TBool => match v with VBool _ => inr v | _ => inl bool_type end
  | TDatetime => match v with VDatetime _ => inr v | _ => inl datetime_type end
  | TDecimal => match v with VDecimal _ => inr v | _ => inl decimal_type end
  | TEnum c =>
      match v with
      | VStr s =>
          match enum_lookup c s with
          | Some e => inr (VEnum e)
          | None => inl enum_error
          end
      | VEnum e =>
          match enum_lookup c (member_value e) with
          | Some e' => inr (VEnum e')
          | None => inl enum_error
          end
      | _ => inl enum_error
      end
  | TList a' =>
      match v with
      | VList l =>
          match
            (fix items (l : list value) : error_type + list value :=
               match l with
               | [] => inr []
               | x :: xs =>
                   match validate_type a' x with
                   | inl e => inl e
                   | inr x' =>
                       match items xs with
                       | inl e => inl e
                       | inr xs' => inr (x' :: xs')
                       end
                   end
               end) l
          with
          | inl e => inl e
          | inr l' => inr (VList l')
          end
      | _ => inl list_type
      end
  | TDict => match v with VDict _ => inr v | _ => inl dict_type end
  | TOptional a' =>
      match v with
      | VNone => inr VNone
      | _ => validate_type a' v
      end
  end.

(** The first error of two checks run in sequence. *)
Definition or_else (a b : option error_type) : option error_type :=
  match a with Some e => Some e | None => b end.

(** Trailing zeros of the coefficient moved into the exponent. *)
Fixpoint strip_zeros (fuel : nat) (c : N) (e : Z) : N * Z :=
  match fuel with
  | O => (c, e)
  | S k =>
      if (c mod 10 =? 0)%N then strip_zeros k (c / 10)%N (e + 1) else (c, e)
  end.

(** [Decimal.normalize]: no trailing zero in the coefficient; zero becomes
    [0E0]. *)
Definition normalize (d : Decimal) : Decimal :=
  if (coefficient d =? 0)%N then mkDecimal (dsign d) 0 0
  else
    let '(c, e) :=
      strip_zeros (N.to_nat (N.size (coefficient d))) (coefficient d)
                  (exponent d) in
    mkDecimal (dsign d) c e.

(** Digits and decimal places of a decimal, as the validator counts them:
    on the normalised decimal. *)
Definition decimal_digits (d : Decimal) : nat * nat :=
  let n := normalize d in
  if 0 <=? exponent n
  then ((num_digits (coefficient n) + Z.to_nat (exponent n))%nat, 0%nat)
  else
    let decimals := Z.to_nat (- exponent n) in
    (Nat.max (num_digits (coefficient n)) decimals, decimals).

Definition check_decimal (ks : list field_kw) (d : Decimal) : option error_type :=
  let '(digits, decimals) := decimal_digits d in
  or_else
    match get_max_digits ks with
    | Some md => if (md <? digits)%nat then Some decimal_max_digits else None
    | None => None
    end
 (or_else
    match get_decimal_places ks with
    | Some dp => if (dp <? decimals)%nat then Some decimal_max_places else None
    | None => None
    end
    match get_max_digits ks, get_decimal_places ks with
    | Some md, Some dp =>
        if (md - dp <? digits - decimals)%nat
        then Some decimal_whole_digits else None
    | _, _ => None
    end).

(** The checks on a string: its length against [min_length], then against
    [max_length].  The keyword [regex] takes no part: SQLModel hands it to
    pydantic's [FieldInfo], whose table of constraints has an entry for
    [pattern] and none for [regex], and keywords without an entry are
    skipped. *)
Definition check_str (ks : list field_kw) (s : string) : option error_type :=
  or_else
    match get_min_length ks with
    | Some n =>
        if (String.length s <? n)%nat then Some string_too_short else None
    | None => None
    end
    match get_max_length ks with
    | Some n =>
        if (n <? String.length s)%nat then Some string_too_long else None
    | None => None
    end.

Definition check_int (ks : list field_kw) (z : Z) : option error_type :=
  or_else
    match get_le ks with
    | Some n => if n <? z then Some less_than_equal else None
    | None => None
    end
    match get_ge ks with
    | Some n => if z <? n then Some greater_than_equal else None
    | None => None
    end.

(** The declared constraints of a field, checked on a value of its type;
    the first violated one is reported. *)
Definition check_constraints (ks : list field_kw) (v : value)
  : option error_type :=
  match v with
  | VStr s => check_str ks s
  | VInt z => check_int ks z
  | VDecimal d => check_decimal ks d
  | _ => None
  end.

Definition validate_field (f : FieldInfo) (v : value) : error_type + value :=
  match validate_type (annot f) v with
  | inl e => inl e
  | inr v' =>
      match check_constraints (kws f) v' with
      | Some e => inl e
      | None => inr v'
      end
  end.

(** The default of a field that has one.  [clock] gives what
    [datetime.utcnow()] returns when the factory of a field is called. *)
Definition field_default (clock : string -> Z) (f : FieldInfo) : option value :=
  match get_default (kws f) with
  | Some v => Some v
  | None =>
      if has_default_factory (kws f)
      then Some (VDatetime (clock (name f))) else None
  end.

(** What validation makes of one field given the keyword arguments [kw]:
    the supplied value validated, or the default (not validated), or a
    [missing] error. *)
Definition field_outcome (clock : string -> Z) (kw : gmap string value)
    (f : FieldInfo) : error_type + value :=
  match kw !! name f with
  | Some v => validate_field f v
  | None =>
      match field_default clock f with
      | Some v => inr v
      | None => inl missing
      end
  end.

(** Validation of all fields: every error is collected, in field order. *)
Fixpoint validate_fields (clock : string -> Z) (fs : list FieldInfo)
    (kw : gmap string value) : list (string * error_type) * gmap string value :=
  match fs with
  | [] => ([], ∅)
  | f :: fs' =>
      let '(errs, d) := validate_fields clock fs' kw in
      match field_outcome clock kw f with
      | inl e => ((name f, e) :: errs, d)
      | inr v => (errs, <[name f := v]> d)
      end
  end.

(** [Cls.model_validate(kw)]: runs the validators of every class, table or
    not. *)
Definition model_validate (m : Model) (clock : string -> Z)
    (kw : gmap string value) : result :=
  match validate_fields clock (fields m) kw with
  | ([], d) => Ok d
  | (errs, _) => ValidationError errs
  end.

(** Construction of a [table=True] class: values stored as supplied,
    defaults for omitted fields, a required field that is omitted stays
    unset; relationship attributes among the arguments are set too. *)
Fixpoint table_fields (clock : string -> Z) (fs : list FieldInfo)
    (kw : gmap string value) : gmap string value :=
  match fs with
  | [] => ∅
  | f :: fs' =>
      let d := table_fields clock fs' kw in
      match kw !! name f with
      | Some v => <[name f := v]> d
      | None =>
          match field_default clock f with
          | Some v => <[name f := v]> d
          | None => d
          end
      end
  end.

Definition sqlmodel_table_construct (m : Model) (clock : string -> Z)
    (kw : gmap string value) : gmap string value :=
  foldr (fun r d => match kw !! r.1 with
                    | Some v => <[r.1 := v]> d
                    | None => d
                    end)
        (table_fields clock (fields m) kw) (relationships m).

(** [Cls(...)] with the keyword arguments [kw]. *)
Definition sqlmodel_init (m : Model) (clock : string -> Z)
    (kw : gmap string value) : result :=
  if table m
  then Ok (sqlmodel_table_construct m clock kw)
  else model_validate m clock kw.

(** ** Fields, arguments and measures named in the properties *)

(** Membership of a field in a concrete field list. *)
Ltac in_fields :=
  simpl; repeat first [apply list_elem_of_here | apply list_elem_of_further].

(** The fields that the properties name, each as its class declares it
    (lemma [named_fields_declared]). *)
Definition User_email : FieldInfo :=
  fld "email" TStr [max_length 255; unique; regex email_regex].

Definition ReportSearch_query : FieldInfo := fld "query" TStr [max_length 500].
Definition ReportSearch_report_type : FieldInfo :=
  fld "report_type" (TOptional (TEnum ReportType_cls)) [default VNone].
Definition ReportSearch_industry_codes : FieldInfo :=
  fld "industry_codes" (TList TStr) [default (VList [])].
Definition ReportSearch_limit : FieldInfo :=
  fld "limit" TInt [default (VInt 20); ge 1; le 100].
Definition ReportSearch_offset : FieldInfo :=
  fld "offset" TInt [default (VInt 0); ge 0].

(** The keyword arguments [query], [limit] and [offset] alone. *)
Definition search_kw (q : string) (l o : Z) : gmap string value :=
  {[ "query" := VStr q; "limit" := VInt l; "offset" := VInt o ]}.

Definition UserCreate_password : FieldInfo :=
  fld "password" TStr [min_length 8; max_length 255].
Definition UserLogin_username : FieldInfo :=
  fld "username" TStr [max_length 100].
Definition UserLogin_password : FieldInfo :=
  fld "password" TStr [max_length 255].

(** The keyword arguments of a registration, [role] left to its default. *)
Definition create_kw (username email full_name password : string)
  : gmap string value :=
  {[ "username" := VStr username; "email" := VStr email;
     "full_name" := VStr full_name; "password" := VStr password ]}.

(** The keyword arguments of a login. *)
Definition login_kw (username password : string) : gmap string value :=
  {[ "username" := VStr username; "password" := VStr password ]}.

(** The enumeration of an enum-typed field, optional or not. *)
Definition enum_of (a : annotation) : option enum_class :=
  match a with
  | TEnum c => Some c
  | TOptional (TEnum c) => Some c
  | _ => None
  end.

(** Class, field and enumeration of every enum-typed field of the module. *)
Definition enum_fields : list (string * string * enum_class) :=
  m ← all_models;
  f ← fields m;
  match enum_of (annot f) with
  | Some c => [(class_name m, name f, c)]
  | None => []
  end.

Definition IBISWorldReport_report_type : FieldInfo :=
  fld "report_type" (TEnum ReportType_cls) [].

Definition invalid_report_kw : gmap string value :=
  {[ "report_id" := VStr "IW-4411"; "title" := VStr "Supermarkets";
     "report_type" := VStr "invalid" ]}.

Definition User_role : FieldInfo :=
  fld "role" (TEnum UserRole_cls) [default (VEnum (EUserRole OFFICIAL))].
Definition User_is_active : FieldInfo :=
  fld "is_active" TBool [default (VBool true)].
Definition IBISWorldReport_is_cached : FieldInfo :=
  fld "is_cached" TBool [default (VBool false)].
Definition IBISWorldReport_access_count : FieldInfo :=
  fld "access_count" TInt [default (VInt 0)].

(** Columns on which a class declares uniqueness: [unique=True] and the
    primary key.  No class of the module declares a constraint over several
    columns ([__table_args__] is absent throughout). *)
Definition unique_columns (m : Model) : list string :=
  name <$> filter (λ f, is_unique (kws f) || is_primary_key (kws f)) (fields m).

Definition SearchResult_search_history_id : FieldInfo :=
  fld "search_history_id" TInt [foreign_key "search_history.id"].
Definition SearchResult_result_rank : FieldInfo :=
  fld "result_rank" TInt [default (VInt 0)].

Definition IBISWorldReport_tags : FieldInfo :=
  fld "tags" (TList TStr) [default (VList []); sa_column_JSON].

Definition IBISWorldReport_report_size_mb : FieldInfo :=
  fld "report_size_mb" (TOptional TDecimal)
      [default VNone; decimal_places 2; max_digits 10].
Definition SearchResult_relevance_score : FieldInfo :=
  fld "relevance_score" (TOptional TDecimal)
      [default VNone; decimal_places 4; max_digits 10].

(** [Decimal("0.1234")] *)
Definition dec_0_1234 : Decimal := mkDecimal false 1234 (-4).


(** ** Views of the declarations *)

(** A field is required when it declares neither a default nor a factory. *)
Definition is_required (f : FieldInfo) : bool :=
  match get_default (kws f) with
  | Some _ => false
  | None => negb (has_default_factory (kws f))
  end.

Definition required_fields (m : Model) : list string :=
  name <$> filter (λ f, is_required f = true) (fields m).

Definition is_optional (a : annotation) : bool :=
  match a with TOptional _ => true | _ => false end.

(** What construction of a table class stores for a field. *)
Definition stored (clock : string → Z) (kw : gmap string value)
    (f : FieldInfo) : option value :=
  match kw !! name f with
  | Some v => Some v
  | None => field_default clock f
  end.

(** Fields whose default is produced by a factory. *)
Definition factory_fields (m : Model) : list string :=
  name <$> filter (λ f, has_default_factory (kws f) = true) (fields m).

(** ** Relationships (models.py, lines 41-42, 87-88, 110-111, 125-126,
    139-140)

    Each [Relationship(back_populates=...)] attribute: the class that
    declares it, its name, whether it is annotated as a [List], the class it
    points to and the attribute named by [back_populates]. *)
Record RelationshipInfo := rel {
  owner : string;
  attr : string;
  to_many : bool;
  target : string;
  back_populates : string
}.

Definition relationship_decls : list RelationshipInfo :=
  [ rel "User" "report_interactions" true "ReportInteraction" "user";
    rel "User" "search_history" true "SearchHistory" "user";
    rel "IBISWorldReport" "interactions" true "ReportInteraction" "report";
    rel "IBISWorldReport" "search_results" true "SearchResult" "report";
    rel "ReportInteraction" "user" false "User" "report_interactions";
    rel "ReportInteraction" "report" false "IBISWorldReport" "interactions";
    rel "SearchHistory" "user" false "User" "search_history";
    rel "SearchHistory" "search_results" true "SearchResult" "search_history";
    rel "SearchResult" "search_history" false "SearchHistory" "search_results";
    rel "SearchResult" "report" false "IBISWorldReport" "search_results" ].

(** The relationship attributes of one class, as [(name, target)]. *)
Definition relationships_of (cls : string) : list (string * string) :=
  (λ r, (attr r, target r))
    <$> filter (λ r, owner r = cls) relationship_decls.

(** The column that a foreign key [table.column] names: an entity with that
    table name and a field of it with that column name. *)
Definition resolves_to (t : string) (m : Model) (f : FieldInfo) : Prop :=
  m ∈ entities ∧ f ∈ fields m
  ∧ ∃ tn, tablename m = Some tn ∧ t = tn +:+ "." +:+ name f.

(** The primary-key column that every entity declares. *)
Definition id_column : FieldInfo :=
  fld "id" (TOptional TInt) [default VNone; primary_key].

(** Membership in a concrete list, trying the elements in turn. *)
Ltac pick :=
  apply list_elem_of_here + (apply list_elem_of_further; pick).

(** The keyword arguments of a [User] whose email is [email]. *)
Definition user_kw (email : string) : gmap string value :=
  {[ "username" := VStr "alice"; "email" := VStr email;
     "full_name" := VStr "Alice"; "password_hash" := VStr "$2b$12$abc" ]}.




(** ** Persistence

    models.py declares the columns; the layer that writes and reads them is
    not under src/.  The spec gives what it has to do: it maps each entity to
    durable storage and exposes create and read keyed by the identifier
    (section 6); a JSON-valued column stores JSON (section 4.1); a numeric
    column stores a fixed-point decimal with the declared digits and decimal
    places, in exact decimal arithmetic (section 4.1).  The definitions of
    this part follow those words. *)





























(** * Properties *)

Lemma named_fields_declared :
  User_email ∈ fields User ∧ User_role ∈ fields User
  ∧ User_is_active ∈ fields User
  ∧ IBISWorldReport_report_type ∈ fields IBISWorldReport
  ∧ IBISWorldReport_report_size_mb ∈ fields IBISWorldReport
  ∧ IBISWorldReport_tags ∈ fields IBISWorldReport
  ∧ IBISWorldReport_is_cached ∈ fields IBISWorldReport
  ∧ IBISWorldReport_access_count ∈ fields IBISWorldReport
  ∧ SearchResult_search_history_id ∈ fields SearchResult
  ∧ SearchResult_relevance_score ∈ fields SearchResult
  ∧ SearchResult_result_rank ∈ fields SearchResult
  ∧ UserCreate_password ∈ fields UserCreate
  ∧ UserLogin_username ∈ fields UserLogin
  ∧ UserLogin_password ∈ fields UserLogin
  ∧ ReportSearch_query ∈ fields ReportSearch
  ∧ ReportSearch_report_type ∈ fields ReportSearch
  ∧ ReportSearch_industry_codes ∈ fields ReportSearch
  ∧ ReportSearch_limit ∈ fields ReportSearch
  ∧ ReportSearch_offset ∈ fields ReportSearch.
Proof. repeat split; in_fields. Qed.

(** ** The validator, field by field *)

Section validation.
Context (clock : string → Z) (kw : gmap string value).

(** The errors reported are exactly the errors of the individual fields. *)
Lemma validate_fields_errs fs n e :
  (n, e) ∈ (validate_fields clock fs kw).1 ↔
  ∃ f, f ∈ fs ∧ name f = n ∧ field_outcome clock kw f = inl e.
Proof.
  induction fs as [|f fs IH]; simpl.
  - split; [intros H; inversion H | intros (f & H & _); inversion H].
  - destruct (validate_fields clock fs kw) as [errs d]; simpl in *.
    destruct (field_outcome clock kw f) as [e'|v'] eqn:Hf; simpl.
    + rewrite elem_of_cons, IH. split.
      * intros [Heq | (g & Hg & Hn & Ho)].
        -- inversion Heq; subst. exists f. rewrite elem_of_cons. auto.
        -- exists g. rewrite elem_of_cons. auto.
      * intros (g & Hg & Hn & Ho). apply elem_of_cons in Hg as [-> | Hg].
        -- left. congruence.
        -- right. eauto.
    + rewrite IH. split.
      * intros (g & Hg & Hn & Ho). exists g. rewrite elem_of_cons. auto.
      * intros (g & Hg & Hn & Ho). apply elem_of_cons in Hg as [-> | Hg].
        -- congruence.
        -- eauto.
Qed.

(** Every attribute of the validated dictionary is the outcome of a
    declared field. *)
Lemma validate_fields_lookup fs n v :
  (validate_fields clock fs kw).2 !! n = Some v →
  ∃ f, f ∈ fs ∧ name f = n ∧ field_outcome clock kw f = inr v.
Proof.
  induction fs as [|f fs IH]; simpl.
  - rewrite lookup_empty. discriminate.
  - destruct (validate_fields clock fs kw) as [errs d]; simpl in *.
    destruct (field_outcome clock kw f) as [e'|v'] eqn:Hf; simpl.
    + intros H. destruct (IH H) as (g & Hg & Hn & Ho).
      exists g. rewrite elem_of_cons. auto.
    + rewrite lookup_insert. case_decide as Hd.
      * intros [= <-]. exists f. rewrite elem_of_cons. auto.
      * intros H. destruct (IH H) as (g & Hg & Hn & Ho).
        exists g. rewrite elem_of_cons. auto.
Qed.

(** A field that validates is stored under its name. *)
Lemma validate_fields_value fs f v :
  NoDup (name <$> fs) → f ∈ fs →
  field_outcome clock kw f = inr v →
  (validate_fields clock fs kw).2 !! name f = Some v.
Proof.
  induction fs as [|g fs IH]; simpl; intros Hnd Hin Ho.
  - inversion Hin.
  - apply NoDup_cons in Hnd as [Hg Hnd].
    destruct (validate_fields clock fs kw) as [errs d]; simpl in *.
    apply elem_of_cons in Hin as [<- | Hin].
    + rewrite Ho. simpl. apply lookup_insert_eq.
    + assert (name g ≠ name f) as Hne.
      { intros Heq. apply Hg. rewrite Heq. apply list_elem_of_fmap. eauto. }
      destruct (field_outcome clock kw g); simpl.
      * by apply IH.
      * rewrite lookup_insert_ne by done. by apply IH.
Qed.

Lemma model_validate_Ok m inst :
  model_validate m clock kw = Ok inst ↔
  validate_fields clock (fields m) kw = ([], inst).
Proof.
  unfold model_validate.
  destruct (validate_fields clock (fields m) kw) as [[|e errs] d];
    split; intros H; inversion H; subst; done.
Qed.

(** On success every declared field validated, and the instance holds the
    validated value. *)
Lemma model_validate_Ok_field m inst f :
  NoDup (name <$> fields m) →
  model_validate m clock kw = Ok inst → f ∈ fields m →
  ∃ v, field_outcome clock kw f = inr v ∧ inst !! name f = Some v.
Proof.
  intros Hnd Hok Hin. apply model_validate_Ok in Hok.
  destruct (field_outcome clock kw f) as [e|v] eqn:Ho.
  - assert ((name f, e) ∈ (validate_fields clock (fields m) kw).1) as Herr.
    { apply validate_fields_errs. eauto. }
    rewrite Hok in Herr. inversion Herr.
  - exists v. split; [done|].
    pose proof (validate_fields_value _ _ _ Hnd Hin Ho) as Hv.
    by rewrite Hok in Hv.
Qed.

(** Validation succeeds as soon as no field is in error. *)
Lemma model_validate_accepts m :
  Forall (λ f, ∃ v, field_outcome clock kw f = inr v) (fields m) →
  ∃ inst, model_validate m clock kw = Ok inst.
Proof.
  intros Hall. unfold model_validate.
  destruct (validate_fields clock (fields m) kw) as [[|[n e] errs] d] eqn:Hv.
  - eauto.
  - assert ((n, e) ∈ (validate_fields clock (fields m) kw).1) as Herr.
    { rewrite Hv. left. }
    apply validate_fields_errs in Herr as (f & Hin & _ & Ho).
    rewrite Forall_forall in Hall. destruct (Hall f Hin) as [v Hv'].
    congruence.
Qed.

(** One field in error makes validation fail, and its error is reported. *)
Lemma model_validate_rejects m f e :
  f ∈ fields m → field_outcome clock kw f = inl e →
  ∃ errs, model_validate m clock kw = ValidationError errs
          ∧ (name f, e) ∈ errs.
Proof.
  intros Hin Ho.
  assert ((name f, e) ∈ (validate_fields clock (fields m) kw).1) as Herr.
  { apply validate_fields_errs. eauto. }
  unfold model_validate.
  destruct (validate_fields clock (fields m) kw) as [[|x errs] d]; simpl in *.
  - inversion Herr.
  - eauto.
Qed.

(** Construction of a table class stores what it is given, else the
    default. *)
Lemma table_fields_lookup fs f :
  NoDup (name <$> fs) → f ∈ fs →
  table_fields clock fs kw !! name f =
    match kw !! name f with
    | Some v => Some v
    | None => field_default clock f
    end.
Proof.
  induction fs as [|g fs IH]; simpl; intros Hnd Hin.
  - inversion Hin.
  - apply NoDup_cons in Hnd as [Hg Hnd].
    apply elem_of_cons in Hin as [<- | Hin].
    + destruct (kw !! name f) as [v|]; [apply lookup_insert_eq|].
      destruct (field_default clock f) as [v|] eqn:Hd;
        [apply lookup_insert_eq|].
      apply eq_None_not_Some. intros [v Hv].
      assert (∃ h, h ∈ fs ∧ name h = name f) as (h & Hh & Hn).
      { clear -Hv. induction fs as [|h fs IH]; simpl in Hv.
        - rewrite lookup_empty in Hv. discriminate.
        - assert (name h = name f ∨ table_fields clock fs kw !! name f = Some v)
            as [Heq | Hrec].
          { destruct (kw !! name h);
              [|destruct (field_default clock h)];
              rewrite ?lookup_insert in Hv; try case_decide; auto. }
          + exists h. split; [left|done].
          + destruct (IH Hrec) as (h' & Hh' & Hn').
            exists h'. split; [by right|done]. }
      apply Hg. rewrite <- Hn. apply list_elem_of_fmap. eauto.
    + assert (name g ≠ name f) as Hne.
      { intros Heq. apply Hg. rewrite Heq. apply list_elem_of_fmap. eauto. }
      destruct (kw !! name g); [|destruct (field_default clock g)];
        rewrite ?lookup_insert_ne by done; by apply IH.
Qed.

Lemma sqlmodel_table_construct_lookup m f :
  NoDup (name <$> fields m) → f ∈ fields m →
  name f ∉ (relationships m).*1 →
  sqlmodel_table_construct m clock kw !! name f =
    match kw !! name f with
    | Some v => Some v
    | None => field_default clock f
    end.
Proof.
  intros Hnd Hin Hrel. unfold sqlmodel_table_construct.
  rewrite <- (table_fields_lookup _ _ Hnd Hin).
  induction (relationships m) as [|r rs IH]; simpl; [done|].
  simpl in Hrel. apply not_elem_of_cons in Hrel as [Hr Hrs].
  destruct (kw !! r.1); [rewrite lookup_insert_ne by done|]; by apply IH.
Qed.
End validation.

(** Field names are distinct within every class, and no relationship
    attribute shares a name with a field. *)
Lemma fields_NoDup m : m ∈ all_models → NoDup (name <$> fields m).
Proof.
  revert m. apply Forall_forall.
  repeat (apply Forall_cons; split;
          [apply (bool_decide_unpack _); vm_compute; reflexivity|]).
  apply Forall_nil_2.
Qed.

Lemma relationships_disjoint m f :
  m ∈ all_models → f ∈ fields m → name f ∉ (relationships m).*1.
Proof.
  intros Hm. revert f. apply Forall_forall. revert m Hm. apply Forall_forall.
  repeat (apply Forall_cons; split;
          [apply (bool_decide_unpack _); vm_compute; reflexivity|]).
  apply Forall_nil_2.
Qed.

(** ** What an accepted value satisfies *)

Lemma check_str_None ks s :
  check_str ks s = None ↔
  (∀ n, get_min_length ks = Some n → (n ≤ String.length s)%nat)
  ∧ (∀ n, get_max_length ks = Some n → (String.length s ≤ n)%nat).
Proof.
  unfold check_str, or_else.
  destruct (get_min_length ks) as [lo|], (get_max_length ks) as [hi|];
    repeat match goal with
           | |- context [(?a <? ?b)%nat] => destruct (Nat.ltb_spec a b)
           end;
    (split;
     [ intros Hnone;
       first [ discriminate Hnone
             | split; intros ? Heq; inversion Heq; subst; (lia || done) ]
     | intros (H1 & H2);
       try specialize (H1 _ eq_refl); try specialize (H2 _ eq_refl);
       first [reflexivity | lia] ]).
Qed.

Lemma check_int_None ks z :
  check_int ks z = None ↔
  (∀ n, get_ge ks = Some n → n ≤ z) ∧ (∀ n, get_le ks = Some n → z ≤ n).
Proof.
  unfold check_int, or_else.
  destruct (get_le ks) as [hi|], (get_ge ks) as [lo|];
    repeat match goal with
           | |- context [?a <? ?b] => destruct (Z.ltb_spec a b)
           end;
    (split;
     [ intros Hnone;
       first [ discriminate Hnone
             | split; intros ? Heq; inversion Heq; subst; (lia || done) ]
     | intros (H1 & H2);
       try specialize (H1 _ eq_refl); try specialize (H2 _ eq_refl);
       first [reflexivity | lia] ]).
Qed.

(** A string field accepts strings only, unchanged, within its bounds. *)
Lemma validate_field_str f v v' :
  annot f = TStr → validate_field f v = inr v' →
  ∃ s, v = VStr s ∧ v' = VStr s ∧ check_str (kws f) s = None.
Proof.
  unfold validate_field. intros ->. destruct v; simpl; try discriminate.
  destruct (check_str (kws f) s) eqn:Hc; [discriminate|].
  intros [= <-]. eauto.
Qed.

Lemma validate_field_str_ok f s :
  annot f = TStr → check_str (kws f) s = None →
  validate_field f (VStr s) = inr (VStr s).
Proof. unfold validate_field. intros -> Hc. simpl. by rewrite Hc. Qed.

Lemma validate_field_str_err f s e :
  annot f = TStr → check_str (kws f) s = Some e →
  validate_field f (VStr s) = inl e.
Proof. unfold validate_field. intros -> Hc. simpl. by rewrite Hc. Qed.

(** An integer field accepts integers only, unchanged, within its range. *)
Lemma validate_field_int f v v' :
  annot f = TInt → validate_field f v = inr v' →
  ∃ z, v = VInt z ∧ v' = VInt z ∧ check_int (kws f) z = None.
Proof.
  unfold validate_field. intros ->. destruct v; simpl; try discriminate.
  destruct (check_int (kws f) z) eqn:Hc; [discriminate|].
  intros [= <-]. eauto.
Qed.

Lemma validate_field_int_ok f z :
  annot f = TInt → check_int (kws f) z = None →
  validate_field f (VInt z) = inr (VInt z).
Proof. unfold validate_field. intros -> Hc. simpl. by rewrite Hc. Qed.

Lemma validate_field_int_err f z e :
  annot f = TInt → check_int (kws f) z = Some e →
  validate_field f (VInt z) = inl e.
Proof. unfold validate_field. intros -> Hc. simpl. by rewrite Hc. Qed.

(** ** Outcome of single fields *)

Lemma field_outcome_supplied clock kw f v :
  kw !! name f = Some v → field_outcome clock kw f = validate_field f v.
Proof. unfold field_outcome. by intros ->. Qed.

Lemma field_outcome_omitted clock kw f v :
  kw !! name f = None → field_default clock f = Some v →
  field_outcome clock kw f = inr v.
Proof. unfold field_outcome. by intros -> ->. Qed.

Lemma model_validate_stores clock kw m inst f v :
  m ∈ all_models → f ∈ fields m →
  model_validate m clock kw = Ok inst →
  field_outcome clock kw f = inr v → inst !! name f = Some v.
Proof.
  intros Hm Hin Hok Ho.
  destruct (model_validate_Ok_field clock kw m inst f (fields_NoDup _ Hm) Hok Hin)
    as (v' & Ho' & Hv).
  congruence.
Qed.

(** ** ReportSearch *)

Lemma ReportSearch_in_models : ReportSearch ∈ all_models.
Proof. in_fields. Qed.

(** An accepted [limit] is an integer of [1,100]. *)
Lemma ReportSearch_limit_outcome clock kw v :
  field_outcome clock kw ReportSearch_limit = inr v →
  ∃ l, v = VInt l ∧ 1 ≤ l ≤ 100.
Proof.
  unfold field_outcome.
  change (name ReportSearch_limit) with "limit".
  destruct (kw !! "limit") as [v0|].
  - intros Hv. apply validate_field_int in Hv as (z & -> & -> & Hc); [|done].
    apply check_int_None in Hc as [Hge Hle].
    specialize (Hge 1 eq_refl). specialize (Hle 100 eq_refl). eauto.
  - intros [= <-]. exists 20. split; [done | lia].
Qed.

(** An accepted [offset] is a non-negative integer. *)
Lemma ReportSearch_offset_outcome clock kw v :
  field_outcome clock kw ReportSearch_offset = inr v →
  ∃ o, v = VInt o ∧ 0 ≤ o.
Proof.
  unfold field_outcome.
  change (name ReportSearch_offset) with "offset".
  destruct (kw !! "offset") as [v0|].
  - intros Hv. apply validate_field_int in Hv as (z & -> & -> & Hc); [|done].
    apply check_int_None in Hc as [Hge _].
    specialize (Hge 0 eq_refl). eauto.
  - intros [= <-]. exists 0. split; [done | lia].
Qed.

(** C2: every constructed [ReportSearch] has [limit] in [1,100] and
    [offset >= 0]; constructing with [limit=0] or [limit=101] fails with a
    validation error on [limit]; constructing with a limit in [1,100] and an
    offset [>= 0] (and a query within its bound of 500) succeeds and the
    instance holds them. *)
Theorem ReportSearch_limit_offset (clock : string → Z) :
  (∀ kw inst, sqlmodel_init ReportSearch clock kw = Ok inst →
     ∃ l o, inst !! "limit" = Some (VInt l) ∧ 1 ≤ l ≤ 100
            ∧ inst !! "offset" = Some (VInt o) ∧ 0 ≤ o)
  ∧ (∀ kw, kw !! "limit" = Some (VInt 0) →
       ∃ errs, sqlmodel_init ReportSearch clock kw = ValidationError errs
               ∧ ("limit", greater_than_equal) ∈ errs)
  ∧ (∀ kw, kw !! "limit" = Some (VInt 101) →
       ∃ errs, sqlmodel_init ReportSearch clock kw = ValidationError errs
               ∧ ("limit", less_than_equal) ∈ errs)
  ∧ (∀ q l o, (String.length q ≤ 500)%nat → 1 ≤ l ≤ 100 → 0 ≤ o →
       ∃ inst, sqlmodel_init ReportSearch clock (search_kw q l o) = Ok inst
               ∧ inst !! "limit" = Some (VInt l)
               ∧ inst !! "offset" = Some (VInt o)).
Proof.
  change (sqlmodel_init ReportSearch clock) with (model_validate ReportSearch clock).
  assert (ReportSearch_limit ∈ fields ReportSearch) as Hlim by in_fields.
  assert (ReportSearch_offset ∈ fields ReportSearch) as Hoff by in_fields.
  pose proof ReportSearch_in_models as Hm.
  split; [|split; [|split]].
  - intros kw inst Hok.
    destruct (model_validate_Ok_field clock kw _ _ _ (fields_NoDup _ Hm) Hok Hlim)
      as (vl & Hol & Hvl).
    destruct (model_validate_Ok_field clock kw _ _ _ (fields_NoDup _ Hm) Hok Hoff)
      as (vo & Hoo & Hvo).
    apply ReportSearch_limit_outcome in Hol as (l & -> & Hl).
    apply ReportSearch_offset_outcome in Hoo as (o & -> & Ho).
    exists l, o. auto.
  - intros kw Hkw.
    apply (model_validate_rejects clock kw ReportSearch ReportSearch_limit);
      [done|].
    by rewrite (field_outcome_supplied clock kw ReportSearch_limit _ Hkw).
  - intros kw Hkw.
    apply (model_validate_rejects clock kw ReportSearch ReportSearch_limit);
      [done|].
    by rewrite (field_outcome_supplied clock kw ReportSearch_limit _ Hkw).
  - intros q l o Hq Hl Ho.
    assert (field_outcome clock (search_kw q l o) ReportSearch_limit
            = inr (VInt l)) as Hol.
    { rewrite (field_outcome_supplied _ _ ReportSearch_limit (VInt l))
        by reflexivity.
      apply validate_field_int_ok; [done|]. apply check_int_None.
      split; intros n [= <-]; lia. }
    assert (field_outcome clock (search_kw q l o) ReportSearch_offset
            = inr (VInt o)) as Hoo.
    { rewrite (field_outcome_supplied _ _ ReportSearch_offset (VInt o))
        by reflexivity.
      apply validate_field_int_ok; [done|]. apply check_int_None.
      split; intros n; [intros [= <-]; lia | discriminate]. }
    assert (field_outcome clock (search_kw q l o) ReportSearch_query
            = inr (VStr q)) as Hoq.
    { rewrite (field_outcome_supplied _ _ ReportSearch_query (VStr q))
        by reflexivity.
      apply validate_field_str_ok; [done|]. apply check_str_None.
      split; intros n; try discriminate. intros [= <-]. lia. }
    destruct (model_validate_accepts clock (search_kw q l o) ReportSearch)
      as [inst Hok].
    { repeat apply Forall_cons_2; try apply Forall_nil_2;
        first [ by eexists; apply Hoq | by eexists; apply Hol
              | by eexists; apply Hoo | by eexists; reflexivity ]. }
    exists inst. split; [done|]. split.
    + apply (model_validate_stores clock _ _ _ ReportSearch_limit _ Hm Hlim Hok Hol).
    + apply (model_validate_stores clock _ _ _ ReportSearch_offset _ Hm Hoff Hok Hoo).
Qed.

Lemma ReportSearch_limit_offset_witness :
  ∃ inst, sqlmodel_init ReportSearch (λ _, 0) (search_kw "solar panels" 50 10)
          = Ok inst
          ∧ inst !! "limit" = Some (VInt 50)
          ∧ inst !! "offset" = Some (VInt 10).
Proof.
  apply (proj2 (proj2 (proj2 (ReportSearch_limit_offset (λ _, 0))))).
  - vm_compute. lia.
  - lia.
  - lia.
Defined.

(** C9: a [ReportSearch] constructed without [limit], [offset],
    [report_type] or [industry_codes] has [limit=20], [offset=0],
    [report_type=None] and [industry_codes=[]]; a query within its bound is
    all that construction needs. *)
Theorem ReportSearch_defaults (clock : string → Z) :
  (∀ kw inst, sqlmodel_init ReportSearch clock kw = Ok inst →
     (kw !! "limit" = None → inst !! "limit" = Some (VInt 20))
     ∧ (kw !! "offset" = None → inst !! "offset" = Some (VInt 0))
     ∧ (kw !! "report_type" = None → inst !! "report_type" = Some VNone)
     ∧ (kw !! "industry_codes" = None →
        inst !! "industry_codes" = Some (VList [])))
  ∧ (∀ q, (String.length q ≤ 500)%nat →
       ∃ inst, sqlmodel_init ReportSearch clock {[ "query" := VStr q ]} = Ok inst
               ∧ inst !! "limit" = Some (VInt 20)
               ∧ inst !! "offset" = Some (VInt 0)
               ∧ inst !! "report_type" = Some VNone
               ∧ inst !! "industry_codes" = Some (VList [])).
Proof.
  change (sqlmodel_init ReportSearch clock) with (model_validate ReportSearch clock).
  pose proof ReportSearch_in_models as Hm.
  assert (∀ kw inst, model_validate ReportSearch clock kw = Ok inst →
     (kw !! "limit" = None → inst !! "limit" = Some (VInt 20))
     ∧ (kw !! "offset" = None → inst !! "offset" = Some (VInt 0))
     ∧ (kw !! "report_type" = None → inst !! "report_type" = Some VNone)
     ∧ (kw !! "industry_codes" = None →
        inst !! "industry_codes" = Some (VList []))) as Hdef.
  { intros kw inst Hok. repeat split; intros Hkw.
    - apply (model_validate_stores clock kw _ _ ReportSearch_limit _ Hm);
        [in_fields | done | by apply field_outcome_omitted].
    - apply (model_validate_stores clock kw _ _ ReportSearch_offset _ Hm);
        [in_fields | done | by apply field_outcome_omitted].
    - apply (model_validate_stores clock kw _ _ ReportSearch_report_type _ Hm);
        [in_fields | done | by apply field_outcome_omitted].
    - apply (model_validate_stores clock kw _ _ ReportSearch_industry_codes _ Hm);
        [in_fields | done | by apply field_outcome_omitted]. }
  split; [exact Hdef|].
  intros q Hq.
  destruct (model_validate_accepts clock {[ "query" := VStr q ]} ReportSearch)
    as [inst Hok].
  { apply Forall_cons_2.
    - exists (VStr q).
      rewrite (field_outcome_supplied _ _ ReportSearch_query (VStr q))
        by reflexivity.
      apply (validate_field_str_ok ReportSearch_query); [done|].
      apply check_str_None.
      split; intros n; try discriminate. intros [= <-]. lia.
    - repeat apply Forall_cons_2; try apply Forall_nil_2;
        by eexists; reflexivity. }
  exists inst. split; [done|].
  destruct (Hdef _ _ Hok) as (H1 & H2 & H3 & H4).
  repeat split; [apply H1 | apply H2 | apply H3 | apply H4]; reflexivity.
Qed.

Lemma ReportSearch_defaults_witness :
  ∃ inst, sqlmodel_init ReportSearch (λ _, 0) {[ "query" := VStr "retail" ]}
          = Ok inst
          ∧ inst !! "limit" = Some (VInt 20)
          ∧ inst !! "offset" = Some (VInt 0)
          ∧ inst !! "report_type" = Some VNone
          ∧ inst !! "industry_codes" = Some (VList []).
Proof.
  apply (proj2 (ReportSearch_defaults (λ _, 0))). vm_compute. lia.
Defined.

(** ** UserCreate and UserLogin: the password *)

Lemma UserCreate_in_models : UserCreate ∈ all_models.
Proof. in_fields. Qed.

Lemma UserLogin_in_models : UserLogin ∈ all_models.
Proof. in_fields. Qed.

(** A string within the single upper bound of a field passes its checks. *)
Lemma check_str_max_only ks s n :
  get_min_length ks = None →
  get_max_length ks = Some n → (String.length s ≤ n)%nat →
  check_str ks s = None.
Proof.
  intros Hmin Hmax Hs. apply check_str_None.
  rewrite Hmin, Hmax. split; intros k; try discriminate.
  intros [= <-]. lia.
Qed.

(** A password shorter than 8 is rejected by [UserCreate] as too short. *)
Lemma UserCreate_short_password clock kw p :
  kw !! "password" = Some (VStr p) → (String.length p < 8)%nat →
  ∃ errs, model_validate UserCreate clock kw = ValidationError errs
          ∧ ("password", string_too_short) ∈ errs.
Proof.
  intros Hkw Hp.
  apply (model_validate_rejects clock kw UserCreate UserCreate_password);
    [in_fields|].
  rewrite (field_outcome_supplied clock kw UserCreate_password _ Hkw).
  apply validate_field_str_err; [done|].
  unfold check_str, or_else.
  change (get_min_length (kws UserCreate_password)) with (Some 8%nat).
  cbv beta iota.
  destruct (String.length p <? 8)%nat eqn:Hlt; [done|].
  apply Nat.ltb_ge in Hlt. lia.
Qed.

(** C3: a [UserCreate] with a password of length 7 fails validation (the
    password is too short); with a password of length 8 to 255 and the other
    fields within their bounds it succeeds; and over all classes of the
    module the only field that declares a minimum length is
    [UserCreate.password], a string field with the bounds 8 and 255. *)
Theorem UserCreate_password_length (clock : string → Z) :
  (∀ kw p, kw !! "password" = Some (VStr p) → String.length p = 7%nat →
     ∃ errs, sqlmodel_init UserCreate clock kw = ValidationError errs
             ∧ ("password", string_too_short) ∈ errs)
  ∧ (∀ u e fn p,
       (String.length u ≤ 100)%nat → (String.length e ≤ 255)%nat →
       (String.length fn ≤ 200)%nat → (8 ≤ String.length p ≤ 255)%nat →
       ∃ inst, sqlmodel_init UserCreate clock (create_kw u e fn p) = Ok inst
               ∧ inst !! "password" = Some (VStr p))
  ∧ (∀ m f n, m ∈ all_models → f ∈ fields m →
       get_min_length (kws f) = Some n →
       m = UserCreate ∧ f = UserCreate_password ∧ n = 8%nat
       ∧ get_max_length (kws f) = Some 255%nat).
Proof.
  change (sqlmodel_init UserCreate clock) with (model_validate UserCreate clock).
  split; [|split].
  - intros kw p Hkw Hp.
    apply (UserCreate_short_password clock kw p); [done | lia].
  - intros u e fn p Hu He Hfn Hp.
    assert (field_outcome clock (create_kw u e fn p) UserCreate_password
            = inr (VStr p)) as Hop.
    { rewrite (field_outcome_supplied _ _ UserCreate_password (VStr p))
        by reflexivity.
      apply validate_field_str_ok; [done|]. apply check_str_None.
      split; intros n; try discriminate; intros [= <-]; lia. }
    destruct (model_validate_accepts clock (create_kw u e fn p) UserCreate)
      as [inst Hok].
    { repeat apply Forall_cons_2; try apply Forall_nil_2.
      - exists (VStr u).
        rewrite (field_outcome_supplied _ _ (fld "username" TStr [max_length 100])
                   (VStr u)) by reflexivity.
        apply validate_field_str_ok; [done|].
        by apply (check_str_max_only _ _ 100%nat).
      - exists (VStr e).
        rewrite (field_outcome_supplied _ _ (fld "email" TStr [max_length 255])
                   (VStr e)) by reflexivity.
        apply validate_field_str_ok; [done|].
        by apply (check_str_max_only _ _ 255%nat).
      - exists (VStr fn).
        rewrite (field_outcome_supplied _ _ (fld "full_name" TStr [max_length 200])
                   (VStr fn)) by reflexivity.
        apply validate_field_str_ok; [done|].
        by apply (check_str_max_only _ _ 200%nat).
      - eexists. apply Hop.
      - eexists. reflexivity. }
    exists inst. split; [done|].
    apply (model_validate_stores clock (create_kw u e fn p) UserCreate inst
             UserCreate_password (VStr p));
      [apply UserCreate_in_models | in_fields | done | done].
  - intros m f n Hm Hf Hmin.
    apply list_elem_of_In in Hm. apply list_elem_of_In in Hf.
    unfold all_models, entities, schemas in Hm. simpl in Hm.
    repeat (destruct Hm as [<- | Hm]; [
      simpl in Hf;
      repeat (destruct Hf as [<- | Hf]; [
        first [discriminate Hmin
              | injection Hmin as <-; repeat split; reflexivity] |]);
      contradiction |]).
    contradiction.
Qed.

Lemma UserCreate_password_length_witness :
  ∃ inst, sqlmodel_init UserCreate (λ _, 0)
            (create_kw "carol" "carol@example.org" "Carol Diaz" "s3cretpw")
          = Ok inst
          ∧ inst !! "password" = Some (VStr "s3cretpw").
Proof.
  apply (proj1 (proj2 (UserCreate_password_length (λ _, 0))));
    vm_compute; lia.
Defined.

(** C10: [UserLogin.password] declares a maximum of 255 and no minimum;
    with a username within its bound, every password of length at most 255,
    the empty one included, is accepted and stored as given, whereas
    [UserCreate] rejects a password shorter than 8 characters. *)
Theorem UserLogin_password_no_minimum (clock : string → Z) :
  get_min_length (kws UserLogin_password) = None
  ∧ get_max_length (kws UserLogin_password) = Some 255%nat
  ∧ (∀ u p, (String.length u ≤ 100)%nat → (String.length p ≤ 255)%nat →
       ∃ inst, sqlmodel_init UserLogin clock (login_kw u p) = Ok inst
               ∧ inst !! "username" = Some (VStr u)
               ∧ inst !! "password" = Some (VStr p))
  ∧ (∀ u, (String.length u ≤ 100)%nat →
       ∃ inst, sqlmodel_init UserLogin clock (login_kw u "") = Ok inst
               ∧ inst !! "password" = Some (VStr ""))
  ∧ (∀ kw p, kw !! "password" = Some (VStr p) → (String.length p < 8)%nat →
       ∃ errs, sqlmodel_init UserCreate clock kw = ValidationError errs
               ∧ ("password", string_too_short) ∈ errs).
Proof.
  change (sqlmodel_init UserLogin clock) with (model_validate UserLogin clock).
  change (sqlmodel_init UserCreate clock) with (model_validate UserCreate clock).
  assert (∀ u p, (String.length u ≤ 100)%nat → (String.length p ≤ 255)%nat →
       ∃ inst, model_validate UserLogin clock (login_kw u p) = Ok inst
               ∧ inst !! "username" = Some (VStr u)
               ∧ inst !! "password" = Some (VStr p)) as Hacc.
  { intros u p Hu Hp.
    assert (field_outcome clock (login_kw u p) UserLogin_username
            = inr (VStr u)) as Hou.
    { rewrite (field_outcome_supplied _ _ UserLogin_username (VStr u))
        by reflexivity.
      apply validate_field_str_ok; [done|].
      by apply (check_str_max_only _ _ 100%nat). }
    assert (field_outcome clock (login_kw u p) UserLogin_password
            = inr (VStr p)) as Hop.
    { rewrite (field_outcome_supplied _ _ UserLogin_password (VStr p))
        by reflexivity.
      apply validate_field_str_ok; [done|].
      by apply (check_str_max_only _ _ 255%nat). }
    destruct (model_validate_accepts clock (login_kw u p) UserLogin)
      as [inst Hok].
    { repeat apply Forall_cons_2; try apply Forall_nil_2;
        [by eexists; apply Hou | by eexists; apply Hop]. }
    exists inst. split; [done|]. split.
    - apply (model_validate_stores clock (login_kw u p) UserLogin inst
               UserLogin_username (VStr u));
        [apply UserLogin_in_models | in_fields | done | done].
    - apply (model_validate_stores clock (login_kw u p) UserLogin inst
               UserLogin_password (VStr p));
        [apply UserLogin_in_models | in_fields | done | done]. }
  split; [reflexivity|]. split; [reflexivity|]. split; [exact Hacc|]. split.
  - intros u Hu. destruct (Hacc u "" Hu) as (inst & Hok & _ & Hp);
      [simpl; lia | eauto].
  - intros kw p Hkw Hp. by apply (UserCreate_short_password clock kw p).
Qed.

Lemma UserLogin_password_no_minimum_witness :
  ∃ inst, sqlmodel_init UserLogin (λ _, 0) (login_kw "dave" "") = Ok inst
          ∧ inst !! "password" = Some (VStr "").
Proof.
  apply (proj1 (proj2 (proj2 (proj2 (UserLogin_password_no_minimum (λ _, 0)))))).
  vm_compute. lia.
Defined.

(** ** Enum fields *)

Lemma enum_lookup_Some c s e :
  enum_lookup c s = Some e →
  member_value e = s ∧ member_class e = c ∧ e ∈ enum_members c.
Proof.
  unfold enum_lookup. intros Hf. apply find_some in Hf as [Hin Heq].
  apply String.eqb_eq in Heq. split; [done|]. split.
  - destruct c; simpl in Hin; intuition (subst; reflexivity).
  - by apply list_elem_of_In.
Qed.

Lemma validate_enum_str_reject f c s :
  enum_of (annot f) = Some c → enum_lookup c s = None →
  validate_field f (VStr s) = inl enum_error.
Proof.
  unfold validate_field. intros Ha Hl.
  destruct (annot f) as [| | | | |c'|a|  |a]; try discriminate.
  - injection Ha as ->. simpl. by rewrite Hl.
  - destruct a; try discriminate. injection Ha as ->. simpl. by rewrite Hl.
Qed.

Lemma validate_enum_str_accept f c s v :
  enum_of (annot f) = Some c → validate_field f (VStr s) = inr v →
  ∃ e, v = VEnum e ∧ member_value e = s ∧ e ∈ enum_members c.
Proof.
  unfold validate_field. intros Ha.
  assert (validate_type (annot f) (VStr s) =
          match enum_lookup c s with
          | Some e => inr (VEnum e)
          | None => inl enum_error
          end) as ->.
  { destruct (annot f) as [| | | | |c'|a|  |a]; try discriminate.
    - by injection Ha as ->.
    - destruct a; try discriminate. by injection Ha as ->. }
  destruct (enum_lookup c s) as [e|] eqn:Hl; [|discriminate].
  simpl. intros [= <-]. exists e.
  apply enum_lookup_Some in Hl as (? & ? & ?). auto.
Qed.

(** C4, as stated, fails on the entities: constructing an
    [IBISWorldReport] with [report_type="invalid"] is not rejected; the
    instance keeps the string, which is no member of [ReportType]. *)
Lemma IBISWorldReport_invalid_type_constructed :
  ∃ inst, sqlmodel_init IBISWorldReport (λ _, 0) invalid_report_kw = Ok inst
          ∧ inst !! "report_type" = Some (VStr "invalid")
          ∧ enum_lookup ReportType_cls "invalid" = None.
Proof. eexists. split; [reflexivity|]. split; vm_compute; reflexivity. Qed.

(** C4, amended: for every enum-typed field of every class, validation
    rejects a string outside the enumeration with an enum error, and a string
    it accepts becomes the member with exactly that value, never another
    one; for the non-persistent schemas ([table=False]) construction runs
    this validation and fails.  Constructing an entity ([table=True]) runs
    no validation.  For [IBISWorldReport.report_type], validation rejects
    "invalid" and accepts "industry" as [ReportType.INDUSTRY]. *)
Theorem enum_fields_closed (clock : string → Z) :
  enum_fields =
    [ ("User", "role", UserRole_cls);
      ("IBISWorldReport", "report_type", ReportType_cls);
      ("ReportInteraction", "interaction_type", InteractionType_cls);
      ("UserCreate", "role", UserRole_cls);
      ("UserUpdate", "role", UserRole_cls);
      ("ReportSearch", "report_type", ReportType_cls);
      ("ReportInteractionCreate", "interaction_type", InteractionType_cls);
      ("ReportSummary", "report_type", ReportType_cls) ]
  ∧ (∀ m f c kw s,
       f ∈ fields m → enum_of (annot f) = Some c →
       kw !! name f = Some (VStr s) → enum_lookup c s = None →
       ∃ errs, model_validate m clock kw = ValidationError errs
               ∧ (name f, enum_error) ∈ errs
               ∧ (table m = false →
                  sqlmodel_init m clock kw = ValidationError errs))
  ∧ (∀ f c s v,
       enum_of (annot f) = Some c → validate_field f (VStr s) = inr v →
       ∃ e, v = VEnum e ∧ member_value e = s ∧ e ∈ enum_members c)
  ∧ (∀ m kw, table m = true → ∃ inst, sqlmodel_init m clock kw = Ok inst)
  ∧ validate_field IBISWorldReport_report_type (VStr "invalid")
    = inl enum_error
  ∧ validate_field IBISWorldReport_report_type (VStr "industry")
    = inr (VEnum (EReportType INDUSTRY)).
Proof.
  split; [reflexivity|]. split; [|split; [|split; [|split]]].
  - intros m f c kw s Hin Ha Hkw Hl.
    destruct (model_validate_rejects clock kw m f enum_error Hin)
      as (errs & Herr & Hmem).
    { rewrite (field_outcome_supplied clock kw f _ Hkw).
      by apply (validate_enum_str_reject f c). }
    exists errs. split; [done|]. split; [done|].
    intros Ht. unfold sqlmodel_init. by rewrite Ht.
  - apply validate_enum_str_accept.
  - intros m kw Ht. unfold sqlmodel_init. rewrite Ht. eauto.
  - reflexivity.
  - reflexivity.
Qed.

Lemma enum_fields_closed_witness :
  ∃ errs, model_validate IBISWorldReport (λ _, 0) invalid_report_kw
          = ValidationError errs
          ∧ ("report_type", enum_error) ∈ errs
          ∧ (table IBISWorldReport = false →
             sqlmodel_init IBISWorldReport (λ _, 0) invalid_report_kw
             = ValidationError errs).
Proof.
  apply (proj1 (proj2 (enum_fields_closed (λ _, 0)))
           IBISWorldReport IBISWorldReport_report_type ReportType_cls
           invalid_report_kw "invalid").
  - vm_compute. repeat first [apply list_elem_of_here | apply list_elem_of_further].
  - reflexivity.
  - reflexivity.
  - reflexivity.
Defined.

(** ** Defaults *)

Lemma field_default_declared clock f d :
  get_default (kws f) = Some d → field_default clock f = Some d.
Proof. unfold field_default. by intros ->. Qed.

(** Whatever the class, an omitted field that declares a default holds it
    in the constructed instance. *)
Lemma default_applied clock kw m f d inst :
  m ∈ all_models → f ∈ fields m →
  get_default (kws f) = Some d → kw !! name f = None →
  sqlmodel_init m clock kw = Ok inst → inst !! name f = Some d.
Proof.
  intros Hm Hin Hd Hkw. unfold sqlmodel_init.
  destruct (table m).
  - intros [= <-].
    rewrite (sqlmodel_table_construct_lookup clock kw m f
               (fields_NoDup _ Hm) Hin (relationships_disjoint _ _ Hm Hin)).
    rewrite Hkw. by apply field_default_declared.
  - intros Hok. apply (model_validate_stores clock kw m inst f d Hm Hin Hok).
    apply field_outcome_omitted; [done|]. by apply field_default_declared.
Qed.

(** A supplied value is what a table class stores; the default stays out. *)
Lemma supplied_kept clock kw m f v :
  m ∈ all_models → f ∈ fields m → kw !! name f = Some v →
  sqlmodel_table_construct m clock kw !! name f = Some v.
Proof.
  intros Hm Hin Hkw.
  rewrite (sqlmodel_table_construct_lookup clock kw m f
             (fields_NoDup _ Hm) Hin (relationships_disjoint _ _ Hm Hin)).
  by rewrite Hkw.
Qed.

Lemma User_in_models : User ∈ all_models.
Proof. in_fields. Qed.

Lemma IBISWorldReport_in_models : IBISWorldReport ∈ all_models.
Proof. in_fields. Qed.

(** ** SearchResult: no uniqueness over (search_history_id, result_rank) *)

Lemma SearchResult_in_models : SearchResult ∈ all_models.
Proof. in_fields. Qed.

(** C7: two [SearchResult]s with the same [search_history_id] and the same
    [result_rank] are both constructed, each holding the pair; the class
    declares uniqueness on neither column, its only key being the primary
    key [id]. *)
Theorem SearchResult_pair_not_unique (clock : string → Z)
    (kw1 kw2 : gmap string value) (h r : value) :
  kw1 !! "search_history_id" = Some h → kw2 !! "search_history_id" = Some h →
  kw1 !! "result_rank" = Some r → kw2 !! "result_rank" = Some r →
  ∃ i1 i2,
    sqlmodel_init SearchResult clock kw1 = Ok i1
    ∧ sqlmodel_init SearchResult clock kw2 = Ok i2
    ∧ i1 !! "search_history_id" = Some h ∧ i1 !! "result_rank" = Some r
    ∧ i2 !! "search_history_id" = Some h ∧ i2 !! "result_rank" = Some r
    ∧ unique_columns SearchResult = ["id"]
    ∧ is_unique (kws SearchResult_search_history_id) = false
    ∧ is_unique (kws SearchResult_result_rank) = false.
Proof.
  intros Hh1 Hh2 Hr1 Hr2. pose proof SearchResult_in_models as Hm.
  exists (sqlmodel_table_construct SearchResult clock kw1),
         (sqlmodel_table_construct SearchResult clock kw2).
  split; [reflexivity|]. split; [reflexivity|].
  split; [|split; [|split; [|split]]].
  - apply (supplied_kept clock kw1 SearchResult SearchResult_search_history_id
             h Hm); [in_fields | done].
  - apply (supplied_kept clock kw1 SearchResult SearchResult_result_rank
             r Hm); [in_fields | done].
  - apply (supplied_kept clock kw2 SearchResult SearchResult_search_history_id
             h Hm); [in_fields | done].
  - apply (supplied_kept clock kw2 SearchResult SearchResult_result_rank
             r Hm); [in_fields | done].
  - repeat split; reflexivity.
Qed.

Lemma SearchResult_pair_not_unique_witness :
  ∃ i1 i2,
    sqlmodel_init SearchResult (λ _, 0)
      {[ "search_history_id" := VInt 7; "report_id" := VInt 1;
         "result_rank" := VInt 1 ]} = Ok i1
    ∧ sqlmodel_init SearchResult (λ _, 0)
        {[ "search_history_id" := VInt 7; "report_id" := VInt 2;
           "result_rank" := VInt 1 ]} = Ok i2
    ∧ i1 !! "search_history_id" = Some (VInt 7)
    ∧ i1 !! "result_rank" = Some (VInt 1)
    ∧ i2 !! "search_history_id" = Some (VInt 7)
    ∧ i2 !! "result_rank" = Some (VInt 1)
    ∧ unique_columns SearchResult = ["id"]
    ∧ is_unique (kws SearchResult_search_history_id) = false
    ∧ is_unique (kws SearchResult_result_rank) = false.
Proof.
  apply (SearchResult_pair_not_unique (λ _, 0)
           {[ "search_history_id" := VInt 7; "report_id" := VInt 1;
              "result_rank" := VInt 1 ]}
           {[ "search_history_id" := VInt 7; "report_id" := VInt 2;
              "result_rank" := VInt 1 ]}
           (VInt 7) (VInt 1)); reflexivity.
Defined.

(** ** Digits of a coefficient *)



(** * Further properties of the schema layer *)

(** ** Strings *)





Lemma append_eq_nil (s1 s2 : string) : s1 +:+ s2 = "" → s1 = "" ∧ s2 = "".
Proof. destruct s1; [done | discriminate]. Qed.

(** ** Enumerations *)

Lemma enum_lookup_member c e :
  e ∈ enum_members c → enum_lookup c (member_value e) = Some e.
Proof.
  intros He. apply list_elem_of_In in He.
  destruct c; simpl in He; intuition (subst; reflexivity).
Qed.

(** X3: a member is found again from its value, and within one enumeration
    two members with the same value are the same member. *)
Theorem enum_value_round_trip (c : enum_class) (e : enum_member) :
  e ∈ enum_members c →
  enum_lookup c (member_value e) = Some e
  ∧ (∀ e', e' ∈ enum_members c → member_value e' = member_value e → e' = e).
Proof.
  intros He. split.
  - apply list_elem_of_In in He.
    destruct c; simpl in He; intuition (subst; reflexivity).
  - intros e' He' Hv.
    apply list_elem_of_In in He. apply list_elem_of_In in He'.
    destruct c; simpl in He, He'; intuition (subst; (done || discriminate)).
Qed.

Lemma enum_value_round_trip_witness :
  enum_lookup UserRole_cls (member_value (EUserRole VIEWER))
  = Some (EUserRole VIEWER).
Proof.
  refine (proj1 (enum_value_round_trip UserRole_cls (EUserRole VIEWER) _)).
  vm_compute. repeat first [apply list_elem_of_here | apply list_elem_of_further].
Defined.

(** ** Validation as a whole *)

Lemma field_by_name (fs : list FieldInfo) f g :
  NoDup (name <$> fs) → f ∈ fs → g ∈ fs → name f = name g → f = g.
Proof.
  induction fs as [|h fs IH]; intros Hnd Hf Hg Hn; [inversion Hf|].
  apply NoDup_cons in Hnd as [Hh Hnd].
  apply elem_of_cons in Hf as [-> | Hf]; apply elem_of_cons in Hg as [-> | Hg].
  - done.
  - exfalso. apply Hh. rewrite Hn. apply list_elem_of_fmap. eauto.
  - exfalso. apply Hh. rewrite <- Hn. apply list_elem_of_fmap. eauto.
  - by apply IH.
Qed.

Lemma validate_fields_ext clock fs kw kw' :
  (∀ f, f ∈ fs → field_outcome clock kw f = field_outcome clock kw' f) →
  validate_fields clock fs kw = validate_fields clock fs kw'.
Proof.
  induction fs as [|f fs IH]; intros Hext; simpl; [done|].
  rewrite IH by (intros g Hg; apply Hext; by right).
  rewrite (Hext f) by left. done.
Qed.

Lemma table_fields_ext clock fs kw kw' :
  (∀ f, f ∈ fs → stored clock kw f = stored clock kw' f) →
  table_fields clock fs kw = table_fields clock fs kw'.
Proof.
  induction fs as [|f fs IH]; intros Hext; simpl; [done|].
  rewrite IH by (intros g Hg; apply Hext; by right).
  pose proof (Hext f ltac:(left)) as Hf. unfold stored in Hf.
  destruct (kw !! name f), (kw' !! name f);
    try destruct (field_default clock f); simplify_eq; done.
Qed.

Lemma sqlmodel_table_construct_ext m clock kw kw' :
  (∀ f, f ∈ fields m → stored clock kw f = stored clock kw' f) →
  (∀ r, r ∈ (relationships m).*1 → kw !! r = kw' !! r) →
  sqlmodel_table_construct m clock kw = sqlmodel_table_construct m clock kw'.
Proof.
  intros Hf Hr. unfold sqlmodel_table_construct.
  rewrite (table_fields_ext clock (fields m) kw kw' Hf).
  induction (relationships m) as [|r rs IH]; simpl; [done|].
  rewrite IH by (intros k Hk; apply Hr; by right).
  rewrite (Hr r.1) by left. done.
Qed.

Lemma validated_outside m clock kw inst k :
  model_validate m clock kw = Ok inst → k ∉ name <$> fields m →
  inst !! k = None.
Proof.
  intros Hok Hk. apply model_validate_Ok in Hok.
  apply eq_None_not_Some. intros [v Hv]. apply Hk.
  pose proof (validate_fields_lookup clock kw (fields m) k v) as Hl.
  rewrite Hok in Hl. destruct (Hl Hv) as (f & Hf & <- & _).
  apply list_elem_of_fmap. eauto.
Qed.

(** X6: a keyword argument that names neither a field nor a relationship
    does not change what construction returns. *)
Theorem unknown_keyword_ignored (m : Model) (clock : string → Z)
    (kw : gmap string value) (k : string) (v : value) :
  k ∉ name <$> fields m → k ∉ (relationships m).*1 →
  sqlmodel_init m clock (<[k := v]> kw) = sqlmodel_init m clock kw
  ∧ model_validate m clock (<[k := v]> kw) = model_validate m clock kw.
Proof.
  intros Hk Hr.
  assert (∀ f, f ∈ fields m → <[k := v]> kw !! name f = kw !! name f) as Hl.
  { intros f Hf. apply lookup_insert_ne. intros ->. apply Hk.
    apply list_elem_of_fmap. eauto. }
  assert (model_validate m clock (<[k := v]> kw) = model_validate m clock kw)
    as Hv.
  { unfold model_validate. rewrite (validate_fields_ext clock _ _ kw); [done|].
    intros f Hf. unfold field_outcome. by rewrite Hl. }
  split; [|done]. unfold sqlmodel_init. destruct (table m); [|done].
  f_equal. apply sqlmodel_table_construct_ext.
  - intros f Hf. unfold stored. by rewrite Hl.
  - intros r Hrel. apply lookup_insert_ne. by intros ->.
Qed.

Lemma unknown_keyword_ignored_witness :
  sqlmodel_init UserLogin (λ _, 0) (<["remember_me" := VBool true]>
                                      (login_kw "erin" "pw"))
  = sqlmodel_init UserLogin (λ _, 0) (login_kw "erin" "pw").
Proof.
  refine (proj1 (unknown_keyword_ignored UserLogin (λ _, 0)
                   (login_kw "erin" "pw") "remember_me" (VBool true) _ _)).
  - apply (bool_decide_unpack _). vm_compute. exact I.
  - apply (bool_decide_unpack _). vm_compute. exact I.
Defined.

(** ** Validating twice *)

Lemma validate_type_idempotent a v v' :
  validate_type a v = inr v' → validate_type a v' = inr v'.
Proof.
  revert v v'. induction a as [| | | | |c|a IH| |a IH]; intros v v'.
  - destruct v; simpl; try discriminate. by intros [= <-].
  - destruct v; simpl; try discriminate. by intros [= <-].
  - destruct v; simpl; try discriminate. by intros [= <-].
  - destruct v; simpl; try discriminate. by intros [= <-].
  - destruct v; simpl; try discriminate. by intros [= <-].
  - assert (∀ x, match enum_lookup c x with
                 | Some e => inr (VEnum e)
                 | None => inl enum_error
                 end = inr v' → validate_type (TEnum c) v' = inr v') as Hl.
    { intros x. destruct (enum_lookup c x) as [e|] eqn:He; [|discriminate].
      intros [= <-]. simpl.
      apply enum_lookup_Some in He as (_ & _ & He).
      by rewrite (enum_lookup_member c e He). }
    destruct v; simpl; try discriminate; apply Hl.
  - destruct v as [| | | | | | |l| |]; simpl; try discriminate.
    match goal with
    | |- match ?t with inl _ => _ | inr _ => _ end = _ → _ =>
        match t with ?g l => set (go := g) end
    end.
    destruct (go l) as [e|l'] eqn:Hl; [discriminate|]. intros [= <-].
    assert (go l' = inr l') as ->; [|done].
    revert l' Hl. induction l as [|x xs IHl]; intros l'; simpl.
    + by intros [= <-].
    + destruct (validate_type a x) as [e|x'] eqn:Hx; [discriminate|].
      destruct (go xs) as [e|xs'] eqn:Hxs; [discriminate|].
      intros [= <-]. simpl. rewrite (IH _ _ Hx). by rewrite (IHl _ eq_refl).
  - destruct v; simpl; try discriminate. by intros [= <-].
  - intros Hv.
    assert (validate_type a v' = inr v' ∨ v' = VNone) as [Hv' | ->].
    { destruct v; simpl in Hv; try (left; by apply (IH _ _ Hv)).
      right. by injection Hv as <-. }
    + simpl. by destruct v'.
    + done.
Qed.

(** A validated value validates to itself. *)
Lemma validate_field_idempotent f v v' :
  validate_field f v = inr v' → validate_field f v' = inr v'.
Proof.
  unfold validate_field.
  destruct (validate_type (annot f) v) as [e|w] eqn:Hw; [discriminate|].
  destruct (check_constraints (kws f) w) eqn:Hc; [discriminate|].
  intros [= <-]. rewrite (validate_type_idempotent _ _ _ Hw). by rewrite Hc.
Qed.

Lemma validate_fields_fixed clock fs (inst : gmap string value) :
  (∀ f, f ∈ fs → ∃ v, inst !! name f = Some v ∧ validate_field f v = inr v) →
  ∃ d, validate_fields clock fs inst = ([], d)
       ∧ ∀ k, d !! k = if decide (k ∈ name <$> fs) then inst !! k else None.
Proof.
  induction fs as [|f fs IH]; intros Hall.
  - exists ∅. split; [done|]. intros k. rewrite lookup_empty.
    destruct (decide (k ∈ name <$> [])) as [Hk|]; [inversion Hk | done].
  - destruct IH as (d & Hfs & Hd); [intros g Hg; apply Hall; by right|].
    destruct (Hall f ltac:(left)) as (v & Hv & Hvv).
    cbn [validate_fields]. rewrite Hfs.
    unfold field_outcome. rewrite Hv, Hvv.
    eexists. split; [done|]. intros k.
    rewrite lookup_insert, Hd, fmap_cons.
    destruct (decide (name f = k)) as [<- | Hne].
    + rewrite decide_True by left. done.
    + destruct (decide (k ∈ name <$> fs)) as [Hin | Hnin].
      * rewrite decide_True by (by right). done.
      * rewrite decide_False; [done|].
        intros [? | ?]%elem_of_cons; [congruence | done].
Qed.

(** Over the whole module, what a field takes as its default passes the
    validation of that field unchanged. *)
Lemma defaults_valid clock m f d :
  m ∈ all_models → f ∈ fields m →
  field_default clock f = Some d → validate_field f d = inr d.
Proof.
  intros Hm Hf Hd.
  apply list_elem_of_In in Hm. apply list_elem_of_In in Hf.
  unfold all_models, entities, schemas in Hm. simpl in Hm.
  repeat (destruct Hm as [<- | Hm]; [
    simpl in Hf;
    repeat (destruct Hf as [<- | Hf]; [
      simpl in Hd;
      first [discriminate Hd | injection Hd as <-; reflexivity] |]);
    contradiction |]).
  contradiction.
Qed.

(** X7: validating the attributes of a validated instance returns that
    instance again, whatever the clock. *)
Theorem model_validate_idempotent (m : Model) (clock clock' : string → Z)
    (kw inst : gmap string value) :
  m ∈ all_models → model_validate m clock kw = Ok inst →
  model_validate m clock' inst = Ok inst.
Proof.
  intros Hm Hok.
  destruct (validate_fields_fixed clock' (fields m) inst) as (d & Hd & Hdk).
  { intros f Hf.
    destruct (model_validate_Ok_field clock kw m inst f
                (fields_NoDup _ Hm) Hok Hf) as (v & Ho & Hv).
    exists v. split; [done|]. unfold field_outcome in Ho.
    destruct (kw !! name f) as [v0|].
    - by apply (validate_field_idempotent f v0).
    - destruct (field_default clock f) as [v0|] eqn:Hdef; [|discriminate].
      injection Ho as <-. by apply (defaults_valid clock m). }
  unfold model_validate. rewrite Hd. f_equal. apply map_eq. intros k.
  rewrite Hdk. case_decide as Hk; [done|].
  symmetry. by apply (validated_outside m clock kw).
Qed.

Lemma model_validate_idempotent_witness :
  model_validate UserLogin (λ _, 1)
    {[ "username" := VStr "erin"; "password" := VStr "pw" ]}
  = Ok {[ "username" := VStr "erin"; "password" := VStr "pw" ]}.
Proof.
  apply (model_validate_idempotent UserLogin (λ _, 0) (λ _, 1)
           (login_kw "erin" "pw")).
  - vm_compute. repeat first [apply list_elem_of_here | apply list_elem_of_further].
  - reflexivity.
Defined.

(** X8: passing the declared default of a field explicitly gives the same
    result as omitting the field, for every field of every class that
    declares a default. *)
Theorem explicit_default_same (m : Model) (f : FieldInfo) (d : value)
    (clock : string → Z) (kw : gmap string value) :
  m ∈ all_models → f ∈ fields m →
  get_default (kws f) = Some d → kw !! name f = None →
  sqlmodel_init m clock (<[name f := d]> kw) = sqlmodel_init m clock kw.
Proof.
  intros Hm Hf Hd Hkw.
  assert (field_default clock f = Some d) as Hdef
    by (by apply field_default_declared).
  assert (∀ g, g ∈ fields m → name g = name f → g = f) as Heq.
  { intros g Hg Hn.
    by apply (field_by_name (fields m) g f (fields_NoDup _ Hm)). }
  unfold sqlmodel_init. destruct (table m).
  - f_equal. apply sqlmodel_table_construct_ext.
    + intros g Hg. unfold stored.
      destruct (decide (name g = name f)) as [Hn | Hn].
      * rewrite (Heq g Hg Hn). by rewrite lookup_insert_eq, Hkw, Hdef.
      * by rewrite lookup_insert_ne.
    + intros r Hr. apply lookup_insert_ne. intros <-.
      by apply (relationships_disjoint m f Hm Hf).
  - unfold model_validate.
    rewrite (validate_fields_ext clock _ _ kw); [done|].
    intros g Hg. unfold field_outcome.
    destruct (decide (name g = name f)) as [Hn | Hn].
    + rewrite (Heq g Hg Hn).
      rewrite lookup_insert_eq, Hkw, Hdef. by apply (defaults_valid clock m).
    + by rewrite lookup_insert_ne.
Qed.

Lemma explicit_default_same_witness :
  sqlmodel_init ReportSearch (λ _, 0)
    (<["limit" := VInt 20]> {[ "query" := VStr "retail" ]})
  = sqlmodel_init ReportSearch (λ _, 0) {[ "query" := VStr "retail" ]}.
Proof.
  apply (explicit_default_same ReportSearch ReportSearch_limit (VInt 20)
           (λ _, 0) {[ "query" := VStr "retail" ]}).
  - vm_compute. repeat first [apply list_elem_of_here | apply list_elem_of_further].
  - vm_compute. repeat first [apply list_elem_of_here | apply list_elem_of_further].
  - reflexivity.
  - reflexivity.
Defined.

(** ** Required fields *)

Lemma is_required_no_default clock f :
  is_required f = true → field_default clock f = None.
Proof.
  unfold is_required, field_default.
  destruct (get_default (kws f)); [discriminate|].
  by destruct (has_default_factory (kws f)).
Qed.

(** X9: the required fields of each class are as listed; omitting one makes
    validation fail with a [missing] error for it, and construction of a
    non-persistent schema with it; an entity is constructed all the same,
    with the attribute unset. *)
Theorem required_field_missing (clock : string → Z) :
  (λ m, (class_name m, required_fields m)) <$> all_models =
    [ ("User", ["username"; "email"; "full_name"; "password_hash"]);
      ("APICredentials", ["service_name"; "api_key"; "created_by_user_id"]);
      ("IBISWorldReport", ["report_id"; "title"; "report_type"]);
      ("ReportInteraction",
       ["user_id"; "report_id"; "interaction_type"; "response"]);
      ("SearchHistory", ["user_id"; "search_query"]);
      ("SearchResult", ["search_history_id"; "report_id"]);
      ("ReportCache", ["cache_key"; "cache_type"; "cache_data"; "expires_at"]);
      ("AuditLog", ["action"]);
      ("UserCreate", ["username"; "email"; "full_name"; "password"]);
      ("UserUpdate", []);
      ("UserLogin", ["username"; "password"]);
      ("ReportSearch", ["query"]);
      ("ReportInteractionCreate", ["report_id"; "interaction_type"]);
      ("APICredentialsCreate", ["service_name"; "api_key"]);
      ("APICredentialsUpdate", []);
      ("ReportSummary",
       ["id"; "report_id"; "title"; "report_type"; "access_count";
        "is_cached"]);
      ("InteractionHistory", ["total_count"; "user_name"; "report_title"]) ]
  ∧ (∀ m f kw,
       f ∈ fields m → is_required f = true → kw !! name f = None →
       ∃ errs, model_validate m clock kw = ValidationError errs
               ∧ (name f, missing) ∈ errs
               ∧ (table m = false →
                  sqlmodel_init m clock kw = ValidationError errs))
  ∧ (∀ m f kw,
       m ∈ all_models → f ∈ fields m → is_required f = true →
       kw !! name f = None → table m = true →
       ∃ inst, sqlmodel_init m clock kw = Ok inst ∧ inst !! name f = None).
Proof.
  split; [reflexivity|]. split.
  - intros m f kw Hf Hreq Hkw.
    destruct (model_validate_rejects clock kw m f missing Hf)
      as (errs & Herr & Hmem).
    { unfold field_outcome.
      by rewrite Hkw, (is_required_no_default clock f Hreq). }
    exists errs. split; [done|]. split; [done|].
    intros Ht. unfold sqlmodel_init. by rewrite Ht.
  - intros m f kw Hm Hf Hreq Hkw Ht.
    exists (sqlmodel_table_construct m clock kw). split.
    + unfold sqlmodel_init. by rewrite Ht.
    + rewrite (sqlmodel_table_construct_lookup clock kw m f
                 (fields_NoDup _ Hm) Hf (relationships_disjoint _ _ Hm Hf)).
      rewrite Hkw. by apply is_required_no_default.
Qed.

Lemma required_field_missing_witness :
  ∃ errs, model_validate UserLogin (λ _, 0) {[ "username" := VStr "erin" ]}
          = ValidationError errs
          ∧ ("password", missing) ∈ errs
          ∧ (table UserLogin = false →
             sqlmodel_init UserLogin (λ _, 0) {[ "username" := VStr "erin" ]}
             = ValidationError errs).
Proof.
  apply (proj1 (proj2 (required_field_missing (λ _, 0)))
           UserLogin UserLogin_password {[ "username" := VStr "erin" ]}).
  - vm_compute. repeat first [apply list_elem_of_here | apply list_elem_of_further].
  - reflexivity.
  - reflexivity.
Defined.

(** ** Bounds *)

(** Over the whole module a [max_length] sits on a string field, optional
    or not, and is no smaller than a [min_length] beside it. *)
Lemma max_length_on_strings m f n :
  m ∈ all_models → f ∈ fields m → get_max_length (kws f) = Some n →
  (annot f = TStr ∨ annot f = TOptional TStr)
  ∧ (∀ k, get_min_length (kws f) = Some k → (k ≤ n)%nat).
Proof.
  intros Hm Hf Hn.
  apply list_elem_of_In in Hm. apply list_elem_of_In in Hf.
  unfold all_models, entities, schemas in Hm. simpl in Hm.
  repeat (destruct Hm as [<- | Hm]; [
    simpl in Hf;
    repeat (destruct Hf as [<- | Hf]; [
      first [ discriminate Hn
            | injection Hn as <-; split; [auto|];
              intros k Hk; first [discriminate Hk | injection Hk as <-; lia] ]
      |]);
    contradiction |]).
  contradiction.
Qed.

(** X10: for every field of every class that declares [max_length=n], a
    string longer than [n] fails validation with [string_too_long], and
    construction of a non-persistent schema with it. *)
Theorem max_length_enforced (clock : string → Z) (m : Model) (f : FieldInfo)
    (n : nat) (s : string) (kw : gmap string value) :
  m ∈ all_models → f ∈ fields m → get_max_length (kws f) = Some n →
  kw !! name f = Some (VStr s) → (n < String.length s)%nat →
  ∃ errs, model_validate m clock kw = ValidationError errs
          ∧ (name f, string_too_long) ∈ errs
          ∧ (table m = false → sqlmodel_init m clock kw = ValidationError errs).
Proof.
  intros Hm Hf Hn Hkw Hs.
  destruct (max_length_on_strings m f n Hm Hf Hn) as [Ha Hmin].
  destruct (model_validate_rejects clock kw m f string_too_long Hf)
    as (errs & Herr & Hmem).
  { rewrite (field_outcome_supplied clock kw f _ Hkw). unfold validate_field.
    assert (validate_type (annot f) (VStr s) = inr (VStr s)) as ->
      by (destruct Ha as [-> | ->]; reflexivity).
    assert (check_constraints (kws f) (VStr s) = Some string_too_long) as ->;
      [|done].
    simpl. unfold check_str, or_else. rewrite Hn.
    destruct (get_min_length (kws f)) as [k|] eqn:Hk.
    - specialize (Hmin k eq_refl).
      destruct (String.length s <? k)%nat eqn:Hlt;
        [apply Nat.ltb_lt in Hlt; lia|].
      destruct (n <? String.length s)%nat eqn:Hgt; [done|].
      apply Nat.ltb_ge in Hgt. lia.
    - destruct (n <? String.length s)%nat eqn:Hgt; [done|].
      apply Nat.ltb_ge in Hgt. lia. }
  exists errs. split; [done|]. split; [done|].
  intros Ht. unfold sqlmodel_init. by rewrite Ht.
Qed.

Lemma max_length_enforced_witness :
  ∃ errs, model_validate AuditLog (λ _, 0)
            {[ "action" := VStr "login";
               "ip_address" :=
                 VStr "2001:0db8:85a3:0000:0000:8a2e:0370:7334%eth0-extra" ]}
          = ValidationError errs
          ∧ ("ip_address", string_too_long) ∈ errs
          ∧ (table AuditLog = false →
             sqlmodel_init AuditLog (λ _, 0)
               {[ "action" := VStr "login";
                  "ip_address" :=
                    VStr "2001:0db8:85a3:0000:0000:8a2e:0370:7334%eth0-extra" ]}
             = ValidationError errs).
Proof.
  apply (max_length_enforced (λ _, 0) AuditLog
           (fld "ip_address" (TOptional TStr) [default VNone; max_length 45])
           45%nat "2001:0db8:85a3:0000:0000:8a2e:0370:7334%eth0-extra").
  - vm_compute. repeat first [apply list_elem_of_here | apply list_elem_of_further].
  - vm_compute. repeat first [apply list_elem_of_here | apply list_elem_of_further].
  - reflexivity.
  - reflexivity.
  - vm_compute. lia.
Defined.

(** X11: an integer outside the declared range of an integer field fails
    validation: above [le] with [less_than_equal], below [ge] with
    [greater_than_equal]. *)
Theorem int_range_enforced (clock : string → Z) (m : Model) (f : FieldInfo)
    (kw : gmap string value) (z : Z) :
  f ∈ fields m → annot f = TInt → kw !! name f = Some (VInt z) →
  (∀ hi, get_le (kws f) = Some hi → hi < z →
     ∃ errs, model_validate m clock kw = ValidationError errs
             ∧ (name f, less_than_equal) ∈ errs)
  ∧ (∀ lo, get_ge (kws f) = Some lo → z < lo →
     (∀ hi, get_le (kws f) = Some hi → z ≤ hi) →
     ∃ errs, model_validate m clock kw = ValidationError errs
             ∧ (name f, greater_than_equal) ∈ errs).
Proof.
  intros Hf Ha Hkw. split.
  - intros hi Hhi Hz.
    apply (model_validate_rejects clock kw m f); [done|].
    rewrite (field_outcome_supplied clock kw f _ Hkw).
    apply validate_field_int_err; [done|].
    unfold check_int, or_else. rewrite Hhi.
    destruct (hi <? z) eqn:Hlt; [done|]. apply Z.ltb_ge in Hlt. lia.
  - intros lo Hlo Hz Hle.
    apply (model_validate_rejects clock kw m f); [done|].
    rewrite (field_outcome_supplied clock kw f _ Hkw).
    apply validate_field_int_err; [done|].
    unfold check_int, or_else. rewrite Hlo.
    destruct (get_le (kws f)) as [hi|].
    + specialize (Hle hi eq_refl).
      destruct (hi <? z) eqn:Hlt; [apply Z.ltb_lt in Hlt; lia|].
      destruct (z <? lo) eqn:Hlt'; [done|]. apply Z.ltb_ge in Hlt'. lia.
    + destruct (z <? lo) eqn:Hlt'; [done|]. apply Z.ltb_ge in Hlt'. lia.
Qed.

Lemma int_range_enforced_witness :
  ∃ errs, model_validate ReportSearch (λ _, 0)
            {[ "query" := VStr "retail"; "offset" := VInt (-1) ]}
          = ValidationError errs
          ∧ ("offset", greater_than_equal) ∈ errs.
Proof.
  apply (proj2 (int_range_enforced (λ _, 0) ReportSearch ReportSearch_offset
                  {[ "query" := VStr "retail"; "offset" := VInt (-1) ]} (-1)
                  ltac:(vm_compute; repeat first [apply list_elem_of_here
                                                 | apply list_elem_of_further])
                  eq_refl eq_refl) 0).
  - reflexivity.
  - lia.
  - intros hi H. discriminate H.
Defined.

(** ** None *)

Lemma validate_field_None f :
  validate_field f VNone =
    if is_optional (annot f) then inr VNone
    else match validate_type (annot f) VNone with
         | inl e => inl e
         | inr v => inr v
         end.
Proof.
  unfold validate_field. by destruct (annot f).
Qed.

Lemma validate_type_None_error a :
  is_optional a = false → ∃ e, validate_type a VNone = inl e.
Proof. destruct a; simpl; try discriminate; eauto. Qed.

(** X12: [None] is accepted for the fields annotated [Optional], and stored
    as [None]; for every other field it fails validation with a type error
    for that field. *)
Theorem none_only_for_optional (clock : string → Z) (m : Model)
    (f : FieldInfo) (kw : gmap string value) :
  f ∈ fields m → kw !! name f = Some VNone →
  (is_optional (annot f) = true →
   field_outcome clock kw f = inr VNone
   ∧ (m ∈ all_models → ∀ inst, model_validate m clock kw = Ok inst →
        inst !! name f = Some VNone))
  ∧ (is_optional (annot f) = false →
     ∃ errs e, model_validate m clock kw = ValidationError errs
               ∧ (name f, e) ∈ errs ∧ e ≠ missing).
Proof.
  intros Hf Hkw. split.
  - intros Hopt.
    assert (field_outcome clock kw f = inr VNone) as Ho.
    { rewrite (field_outcome_supplied clock kw f _ Hkw).
      by rewrite validate_field_None, Hopt. }
    split; [done|]. intros Hm inst Hok.
    by apply (model_validate_stores clock kw m inst f VNone Hm Hf Hok).
  - intros Hopt.
    destruct (validate_type_None_error _ Hopt) as [e He].
    destruct (model_validate_rejects clock kw m f e Hf) as (errs & Herr & Hmem).
    { rewrite (field_outcome_supplied clock kw f _ Hkw).
      by rewrite validate_field_None, Hopt, He. }
    exists errs, e. split; [done|]. split; [done|].
    intros ->. destruct (annot f); simpl in He; discriminate.
Qed.

Lemma none_only_for_optional_witness :
  ∃ errs e, model_validate UserLogin (λ _, 0)
              {[ "username" := VStr "erin"; "password" := VNone ]}
            = ValidationError errs
            ∧ ("password", e) ∈ errs ∧ e ≠ missing.
Proof.
  apply (proj2 (none_only_for_optional (λ _, 0) UserLogin UserLogin_password
                  {[ "username" := VStr "erin"; "password" := VNone ]}
                  ltac:(vm_compute; repeat first [apply list_elem_of_here
                                                 | apply list_elem_of_further])
                  eq_refl)).
  reflexivity.
Defined.

(** ** Timestamps *)

(** Over the whole module a factory default sits on a [datetime] field
    without a plain default. *)
Lemma factory_on_datetime m f :
  m ∈ all_models → f ∈ fields m → has_default_factory (kws f) = true →
  annot f = TDatetime ∧ get_default (kws f) = None.
Proof.
  intros Hm Hf Hfac.
  apply list_elem_of_In in Hm. apply list_elem_of_In in Hf.
  unfold all_models, entities, schemas in Hm. simpl in Hm.
  repeat (destruct Hm as [<- | Hm]; [
    simpl in Hf;
    repeat (destruct Hf as [<- | Hf]; [
      first [discriminate Hfac | split; reflexivity] |]);
    contradiction |]).
  contradiction.
Qed.

(** X13: the fields filled by [datetime.utcnow] are the [created_at] and
    [updated_at] of the entities; when such a field is omitted the instance
    holds the reading of the clock taken for that field, and when it is
    supplied an entity holds the supplied value. *)
Theorem timestamps_from_clock (clock : string → Z) :
  (λ m, (class_name m, factory_fields m)) <$> all_models =
    [ ("User", ["created_at"]);
      ("APICredentials", ["created_at"; "updated_at"]);
      ("IBISWorldReport", ["created_at"; "updated_at"]);
      ("ReportInteraction", ["created_at"]);
      ("SearchHistory", ["created_at"]);
      ("SearchResult", []);
      ("ReportCache", ["created_at"]);
      ("AuditLog", ["created_at"]);
      ("UserCreate", []); ("UserUpdate", []); ("UserLogin", []);
      ("ReportSearch", []); ("ReportInteractionCreate", []);
      ("APICredentialsCreate", []); ("APICredentialsUpdate", []);
      ("ReportSummary", []); ("InteractionHistory", []) ]
  ∧ (∀ m f kw inst,
       m ∈ all_models → f ∈ fields m → has_default_factory (kws f) = true →
       kw !! name f = None → sqlmodel_init m clock kw = Ok inst →
       inst !! name f = Some (VDatetime (clock (name f))))
  ∧ (∀ m f kw v,
       m ∈ all_models → f ∈ fields m → table m = true →
       kw !! name f = Some v →
       ∃ inst, sqlmodel_init m clock kw = Ok inst ∧ inst !! name f = Some v).
Proof.
  split; [reflexivity|]. split.
  - intros m f kw inst Hm Hf Hfac Hkw.
    destruct (factory_on_datetime m f Hm Hf Hfac) as [_ Hnd].
    assert (field_default clock f = Some (VDatetime (clock (name f)))) as Hd.
    { unfold field_default. by rewrite Hnd, Hfac. }
    unfold sqlmodel_init. destruct (table m).
    + intros [= <-].
      rewrite (sqlmodel_table_construct_lookup clock kw m f
                 (fields_NoDup _ Hm) Hf (relationships_disjoint _ _ Hm Hf)).
      by rewrite Hkw.
    + intros Hok. apply (model_validate_stores clock kw m inst f _ Hm Hf Hok).
      by apply field_outcome_omitted.
  - intros m f kw v Hm Hf Ht Hkw.
    exists (sqlmodel_table_construct m clock kw). split.
    + unfold sqlmodel_init. by rewrite Ht.
    + by apply supplied_kept.
Qed.

Lemma timestamps_from_clock_witness :
  sqlmodel_table_construct APICredentials
    (λ k, if String.eqb k "created_at" then 1700000000 else 1700000001)
    {[ "service_name" := VStr "ibisworld"; "api_key" := VStr "k" ]}
    !! "updated_at" = Some (VDatetime 1700000001).
Proof.
  apply (proj1 (proj2 (timestamps_from_clock
           (λ k, if String.eqb k "created_at" then 1700000000 else 1700000001)))
           APICredentials (fld "updated_at" TDatetime [utcnow])
           {[ "service_name" := VStr "ibisworld"; "api_key" := VStr "k" ]}).
  - vm_compute. repeat first [apply list_elem_of_here | apply list_elem_of_further].
  - vm_compute. repeat first [apply list_elem_of_here | apply list_elem_of_further].
  - reflexivity.
  - reflexivity.
  - reflexivity.
Defined.

(** ** Keys and references between the tables *)

(** X15: every foreign key of the module sits on an integer column of an
    entity and names the primary key, an optional integer, of the table of
    a declared entity. *)
Theorem foreign_keys_resolve (m : Model) (f : FieldInfo) (t : string) :
  m ∈ all_models → f ∈ fields m → get_foreign_key (kws f) = Some t →
  m ∈ entities
  ∧ (annot f = TInt ∨ annot f = TOptional TInt)
  ∧ ∃ m' pk, resolves_to t m' pk
             ∧ is_primary_key (kws pk) = true ∧ annot pk = TOptional TInt.
Proof.
  intros Hm Hf Ht.
  apply list_elem_of_In in Hm. apply list_elem_of_In in Hf.
  unfold all_models, entities, schemas in Hm. simpl in Hm.
  repeat (destruct Hm as [<- | Hm]; [
    simpl in Hf;
    repeat (destruct Hf as [<- | Hf]; [
      first [ discriminate Ht
            | injection Ht as <-;
              split; [unfold entities; pick|];
              split; [auto|];
              unfold resolves_to, entities;
              do 2 eexists; split;
                [split; [pick|]; split; [simpl; pick|];
                 eexists; split; reflexivity|];
              split; reflexivity ] |]);
    contradiction |]).
  contradiction.
Qed.

Lemma foreign_keys_resolve_witness :
  SearchResult ∈ entities
  ∧ (annot SearchResult_search_history_id = TInt
     ∨ annot SearchResult_search_history_id = TOptional TInt)
  ∧ ∃ m' pk, resolves_to "search_history.id" m' pk
             ∧ is_primary_key (kws pk) = true ∧ annot pk = TOptional TInt.
Proof.
  apply (foreign_keys_resolve SearchResult SearchResult_search_history_id
           "search_history.id").
  - vm_compute. repeat first [apply list_elem_of_here | apply list_elem_of_further].
  - vm_compute. repeat first [apply list_elem_of_here | apply list_elem_of_further].
  - reflexivity.
Defined.

(** X16: the relationship attributes are those of the classes; each one is
    answered by the attribute its [back_populates] names, on the class it
    points to, with the list on one side and the single object on the other;
    and the class holding the single object declares a foreign key to the
    table of the other class. *)
Theorem relationships_paired :
  Forall (λ m, relationships m = relationships_of (class_name m)) all_models
  ∧ ∀ r, r ∈ relationship_decls →
      (∃ r', r' ∈ relationship_decls
             ∧ owner r' = target r ∧ attr r' = back_populates r
             ∧ target r' = owner r ∧ back_populates r' = attr r
             ∧ to_many r' = negb (to_many r))
      ∧ (to_many r = false →
         ∃ m f m' pk t,
           m ∈ entities ∧ class_name m = owner r
           ∧ f ∈ fields m ∧ get_foreign_key (kws f) = Some t
           ∧ resolves_to t m' pk ∧ class_name m' = target r).
Proof.
  split.
  - repeat (apply Forall_cons; split; [vm_compute; reflexivity|]).
    apply Forall_nil_2.
  - intros r Hr. apply list_elem_of_In in Hr.
    unfold relationship_decls in Hr. simpl in Hr.
    repeat (destruct Hr as [<- | Hr]; [
      split;
      [ unfold relationship_decls; eexists; split; [pick|];
        repeat split; reflexivity
      | simpl; intros Hmany;
        first [ discriminate Hmany
              | unfold resolves_to, entities;
                do 5 eexists;
                split; [pick|]; split; [reflexivity|];
                split; [simpl; pick|]; split; [reflexivity|];
                split; [split; [pick|]; split; [simpl; pick|];
                        eexists; split; reflexivity
                       | reflexivity] ] ] |]).
    contradiction.
Qed.

Lemma relationships_paired_witness :
  ∃ r', r' ∈ relationship_decls
        ∧ owner r' = "User" ∧ attr r' = "report_interactions"
        ∧ target r' = "ReportInteraction" ∧ back_populates r' = "user"
        ∧ to_many r' = negb false.
Proof.
  apply (proj1 (proj2 relationships_paired
           (rel "ReportInteraction" "user" false "User" "report_interactions")
           ltac:(vm_compute; repeat first [apply list_elem_of_here
                                          | apply list_elem_of_further]))).
Defined.

(** X17: every entity is a table class with exactly one primary key, the
    column [id], an optional integer that defaults to [None], so an entity
    built without [id] holds [id=None]; the table names are pairwise
    distinct; the columns declared unique are as listed; the non-persistent
    schemas are no tables and declare no key, no unique column and no
    relationship. *)
Theorem entity_keys (clock : string → Z) :
  Forall (λ m, table m = true
               ∧ filter (λ f, is_primary_key (kws f) = true) (fields m)
                 = [id_column]) entities
  ∧ (∀ m kw, m ∈ entities → kw !! "id" = None →
       ∃ inst, sqlmodel_init m clock kw = Ok inst ∧ inst !! "id" = Some VNone)
  ∧ NoDup (tablename <$> entities)
  ∧ (λ m, (class_name m, unique_columns m)) <$> entities =
      [ ("User", ["id"; "username"; "email"]);
        ("APICredentials", ["id"]);
        ("IBISWorldReport", ["id"; "report_id"]);
        ("ReportInteraction", ["id"]);
        ("SearchHistory", ["id"]);
        ("SearchResult", ["id"]);
        ("ReportCache", ["id"; "cache_key"]);
        ("AuditLog", ["id"]) ]
  ∧ Forall (λ m, table m = false ∧ tablename m = None
                 ∧ unique_columns m = [] ∧ relationships m = []) schemas.
Proof.
  split; [|split; [|split; [|split]]].
  - repeat (apply Forall_cons; split; [split; vm_compute; reflexivity|]).
    apply Forall_nil_2.
  - intros m kw Hm Hkw.
    assert (m ∈ all_models) as Hall
      by (unfold all_models; apply elem_of_app; by left).
    assert (table m = true ∧ id_column ∈ fields m) as [Ht Hid].
    { apply list_elem_of_In in Hm. unfold entities in Hm. simpl in Hm.
      repeat (destruct Hm as [<- | Hm]; [split; [reflexivity | simpl; pick]|]).
      contradiction. }
    exists (sqlmodel_table_construct m clock kw). split.
    + unfold sqlmodel_init. by rewrite Ht.
    + pose proof (sqlmodel_table_construct_lookup clock kw m id_column
                    (fields_NoDup _ Hall) Hid
                    (relationships_disjoint _ _ Hall Hid)) as Hl.
      change (name id_column) with "id" in Hl. by rewrite Hl, Hkw.
  - apply (bool_decide_unpack _). vm_compute. exact I.
  - reflexivity.
  - repeat (apply Forall_cons; split; [repeat split; vm_compute; reflexivity|]).
    apply Forall_nil_2.
Qed.

Lemma entity_keys_witness :
  ∃ inst, sqlmodel_init AuditLog (λ _, 0) {[ "action" := VStr "login" ]}
          = Ok inst ∧ inst !! "id" = Some VNone.
Proof.
  apply (proj1 (proj2 (entity_keys (λ _, 0)))).
  - vm_compute. repeat first [apply list_elem_of_here | apply list_elem_of_further].
  - reflexivity.
Defined.

(** ** Construction against validation *)

Lemma table_fields_outside clock fs (kw : gmap string value) k :
  k ∉ name <$> fs → table_fields clock fs kw !! k = None.
Proof.
  induction fs as [|f fs IH]; intros Hk; simpl; [apply lookup_empty|].
  rewrite fmap_cons in Hk. apply not_elem_of_cons in Hk as [Hne Hk].
  destruct (kw !! name f); [|destruct (field_default clock f)];
    rewrite ?lookup_insert_ne by done; by apply IH.
Qed.

Lemma sqlmodel_table_construct_no_relationship m clock (kw : gmap string value) :
  (∀ r, r ∈ (relationships m).*1 → kw !! r = None) →
  sqlmodel_table_construct m clock kw = table_fields clock (fields m) kw.
Proof.
  unfold sqlmodel_table_construct. intros Hr.
  induction (relationships m) as [|r rs IH]; simpl; [done|].
  rewrite (Hr r.1) by left. apply IH. intros k Hk. apply Hr. by right.
Qed.

(** X18: when the arguments pass validation, no relationship is passed and
    each supplied value is already in its validated form, building the
    instance without validation gives the validated instance. *)
Theorem construct_agrees_with_validate (m : Model) (clock : string → Z)
    (kw inst : gmap string value) :
  m ∈ all_models → model_validate m clock kw = Ok inst →
  (∀ f v, f ∈ fields m → kw !! name f = Some v → validate_field f v = inr v) →
  (∀ r, r ∈ (relationships m).*1 → kw !! r = None) →
  sqlmodel_table_construct m clock kw = inst.
Proof.
  intros Hm Hok Hcanon Hrel.
  rewrite (sqlmodel_table_construct_no_relationship m clock kw Hrel).
  apply map_eq. intros k.
  destruct (decide (k ∈ name <$> fields m)) as [Hk | Hk].
  - apply list_elem_of_fmap in Hk as (f & -> & Hf).
    rewrite (table_fields_lookup clock kw (fields m) f (fields_NoDup _ Hm) Hf).
    destruct (model_validate_Ok_field clock kw m inst f
                (fields_NoDup _ Hm) Hok Hf) as (v & Ho & Hv).
    rewrite Hv. unfold field_outcome in Ho.
    destruct (kw !! name f) as [v0|] eqn:Hkw.
    + rewrite (Hcanon f v0 Hf Hkw) in Ho. by injection Ho as <-.
    + destruct (field_default clock f); [by injection Ho as <- | discriminate].
  - rewrite (table_fields_outside clock (fields m) kw k Hk).
    symmetry. by apply (validated_outside m clock kw).
Qed.

Lemma construct_agrees_with_validate_witness :
  sqlmodel_table_construct SearchResult (λ _, 0)
    {[ "search_history_id" := VInt 7; "report_id" := VInt 1;
       "relevance_score" := VDecimal dec_0_1234 ]}
  = {[ "id" := VNone; "search_history_id" := VInt 7; "report_id" := VInt 1;
       "relevance_score" := VDecimal dec_0_1234; "result_rank" := VInt 0 ]}.
Proof.
  apply (construct_agrees_with_validate SearchResult (λ _, 0)).
  - vm_compute. repeat first [apply list_elem_of_here | apply list_elem_of_further].
  - vm_compute. reflexivity.
  - intros f v Hf. apply list_elem_of_In in Hf. simpl in Hf.
    repeat (destruct Hf as [<- | Hf];
            [vm_compute; intros Hv;
             first [discriminate Hv | injection Hv as <-; reflexivity]|]).
    contradiction.
  - intros r Hr. apply list_elem_of_In in Hr. simpl in Hr.
    repeat (destruct Hr as [<- | Hr]; [reflexivity|]). contradiction.
Defined.

(** * Patterns and defaults at construction *)

(** ** User.email: the pattern is not enforced *)

(** C1 does not hold of the code.  [User.email] declares the pattern and
    "not-an-email" does not match it, yet for every email of at most 255
    characters, "not-an-email" among them, constructing the [User] succeeds
    and so does validating it: the instance holds the email and no
    pattern-mismatch error is raised anywhere. *)
Theorem User_email_pattern_not_enforced (clock : string → Z) (email : string) :
  (String.length email ≤ 255)%nat →
  User_email ∈ fields User
  ∧ get_regex (kws User_email) = Some email_regex
  ∧ regex_match email_regex "not-an-email" = false
  ∧ (∃ inst, sqlmodel_init User clock (user_kw email) = Ok inst
             ∧ inst !! "email" = Some (VStr email))
  ∧ (∃ inst, model_validate User clock (user_kw email) = Ok inst
             ∧ inst !! "email" = Some (VStr email)).
Proof.
  intros Hlen. split; [in_fields|]. split; [reflexivity|].
  split; [reflexivity|]. split.
  - eexists. split; reflexivity.
  - assert (field_outcome clock (user_kw email) User_email
            = inr (VStr email)) as Ho.
    { rewrite (field_outcome_supplied _ _ User_email (VStr email))
        by reflexivity.
      apply validate_field_str_ok; [done|].
      by apply (check_str_max_only _ _ 255%nat). }
    destruct (model_validate_accepts clock (user_kw email) User)
      as [inst Hok].
    { repeat apply Forall_cons_2; try apply Forall_nil_2;
        first [by eexists; apply Ho | by eexists; reflexivity]. }
    exists inst. split; [done|].
    apply (model_validate_stores clock (user_kw email) User inst
             User_email (VStr email) User_in_models);
      [in_fields | done | done].
Qed.

Lemma User_email_pattern_not_enforced_witness :
  ∃ inst, model_validate User (λ _, 0) (user_kw "not-an-email") = Ok inst
          ∧ inst !! "email" = Some (VStr "not-an-email").
Proof.
  refine (proj2 (proj2 (proj2 (proj2
            (User_email_pattern_not_enforced (λ _, 0) "not-an-email" _))))).
  vm_compute. lia.
Defined.

(** ** Defaults at construction *)

Lemma field_default_no_clock clock clock' f :
  field_default clock f = None → field_default clock' f = None.
Proof.
  unfold field_default. destruct (get_default (kws f)); [done|].
  by destruct (has_default_factory (kws f)).
Qed.

Lemma sqlmodel_table_construct_relationship m clock (kw : gmap string value) k :
  k ∈ (relationships m).*1 → k ∉ name <$> fields m →
  sqlmodel_table_construct m clock kw !! k = kw !! k.
Proof.
  unfold sqlmodel_table_construct. intros Hk Hf.
  induction (relationships m) as [|r rs IH]; [inversion Hk|].
  simpl in *. destruct (decide (r.1 = k)) as [-> | Hne].
  - destruct (kw !! k) as [v|] eqn:Hv; [by rewrite lookup_insert_eq|].
    destruct (decide (k ∈ rs.*1)) as [Hin | Hnin]; [by apply IH|].
    clear IH Hk. induction rs as [|r' rs IH]; simpl.
    + by apply table_fields_outside.
    + simpl in Hnin. apply not_elem_of_cons in Hnin as [Hne Hnin].
      destruct (kw !! r'.1); [rewrite lookup_insert_ne by done|]; by apply IH.
  - apply elem_of_cons in Hk as [-> | Hk]; [done|].
    destruct (kw !! r.1); [rewrite lookup_insert_ne by done|]; by apply IH.
Qed.

Lemma sqlmodel_table_construct_elsewhere m clock (kw : gmap string value) k :
  k ∉ (relationships m).*1 → k ∉ name <$> fields m →
  sqlmodel_table_construct m clock kw !! k = None.
Proof.
  unfold sqlmodel_table_construct. intros Hk Hf.
  induction (relationships m) as [|r rs IH]; simpl.
  - by apply table_fields_outside.
  - simpl in Hk. apply not_elem_of_cons in Hk as [Hne Hk].
    destruct (kw !! r.1); [rewrite lookup_insert_ne by done|]; by apply IH.
Qed.

(** Building an entity from the attributes of a built entity changes
    nothing, whatever the clock says by then. *)
Lemma sqlmodel_table_construct_again m clock clock' kw :
  m ∈ all_models →
  sqlmodel_table_construct m clock'
    (sqlmodel_table_construct m clock kw)
  = sqlmodel_table_construct m clock kw.
Proof.
  intros Hm. apply map_eq. intros k.
  set (inst := sqlmodel_table_construct m clock kw).
  destruct (decide (k ∈ name <$> fields m)) as [Hk | Hk].
  - apply list_elem_of_fmap in Hk as (f & -> & Hf).
    rewrite (sqlmodel_table_construct_lookup clock' inst m f
               (fields_NoDup _ Hm) Hf (relationships_disjoint _ _ Hm Hf)).
    destruct (inst !! name f) as [v|] eqn:Hv; [done|].
    unfold inst in Hv.
    rewrite (sqlmodel_table_construct_lookup clock kw m f
               (fields_NoDup _ Hm) Hf (relationships_disjoint _ _ Hm Hf)) in Hv.
    destruct (kw !! name f); [discriminate|].
    by apply (field_default_no_clock clock).
  - destruct (decide (k ∈ (relationships m).*1)) as [Hr | Hr].
    + by rewrite sqlmodel_table_construct_relationship.
    + rewrite sqlmodel_table_construct_elsewhere by done.
      symmetry. by apply sqlmodel_table_construct_elsewhere.
Qed.

(** The arguments of a registration within their bounds are accepted. *)
Lemma UserCreate_accepts clock u e fn p :
  (String.length u ≤ 100)%nat → (String.length e ≤ 255)%nat →
  (String.length fn ≤ 200)%nat → (8 ≤ String.length p ≤ 255)%nat →
  ∃ inst, model_validate UserCreate clock (create_kw u e fn p) = Ok inst.
Proof.
  intros Hu He Hfn Hp. apply model_validate_accepts.
  repeat apply Forall_cons_2; try apply Forall_nil_2.
  - exists (VStr u).
    rewrite (field_outcome_supplied _ _ (fld "username" TStr [max_length 100])
               (VStr u)) by reflexivity.
    apply validate_field_str_ok; [done|].
    by apply (check_str_max_only _ _ 100%nat).
  - exists (VStr e).
    rewrite (field_outcome_supplied _ _ (fld "email" TStr [max_length 255])
               (VStr e)) by reflexivity.
    apply validate_field_str_ok; [done|].
    by apply (check_str_max_only _ _ 255%nat).
  - exists (VStr fn).
    rewrite (field_outcome_supplied _ _ (fld "full_name" TStr [max_length 200])
               (VStr fn)) by reflexivity.
    apply validate_field_str_ok; [done|].
    by apply (check_str_max_only _ _ 200%nat).
  - exists (VStr p).
    rewrite (field_outcome_supplied _ _ UserCreate_password (VStr p))
      by reflexivity.
    apply validate_field_str_ok; [done|]. apply check_str_None.
    split; intros n; intros [= <-]; lia.
  - eexists. reflexivity.
Qed.

(** C6: for every class, a field that declares a default and is omitted
    raises no error and holds the default in the constructed instance; a
    [User] built without [role] has [role=official] and without
    [is_active] has [is_active=true]; an [IBISWorldReport] built without
    [access_count] has [access_count=0] and without [is_cached] has
    [is_cached=false]; a [UserCreate] built from valid arguments without
    [role] is constructed with [role=official].  A supplied value is what
    the instance holds, as given for an entity and as validated for a
    schema.  And defaults are not applied again to an instance that
    exists: constructing from the attributes of a constructed instance, at
    whatever later reading of the clock, gives the same instance. *)
Theorem defaults_at_construction (clock : string → Z) :
  (∀ m f d kw,
     m ∈ all_models → f ∈ fields m →
     get_default (kws f) = Some d → kw !! name f = None →
     (∀ inst, sqlmodel_init m clock kw = Ok inst → inst !! name f = Some d)
     ∧ (∀ errs e, sqlmodel_init m clock kw = ValidationError errs →
          (name f, e) ∉ errs))
  ∧ (∀ kw, ∃ u, sqlmodel_init User clock kw = Ok u
          ∧ (kw !! "role" = None →
             u !! "role" = Some (VEnum (EUserRole OFFICIAL)))
          ∧ (kw !! "is_active" = None → u !! "is_active" = Some (VBool true)))
  ∧ (∀ kw, ∃ r, sqlmodel_init IBISWorldReport clock kw = Ok r
          ∧ (kw !! "access_count" = None →
             r !! "access_count" = Some (VInt 0))
          ∧ (kw !! "is_cached" = None →
             r !! "is_cached" = Some (VBool false)))
  ∧ (∀ u e fn p,
       (String.length u ≤ 100)%nat → (String.length e ≤ 255)%nat →
       (String.length fn ≤ 200)%nat → (8 ≤ String.length p ≤ 255)%nat →
       ∃ inst, sqlmodel_init UserCreate clock (create_kw u e fn p) = Ok inst
               ∧ inst !! "role" = Some (VEnum (EUserRole OFFICIAL)))
  ∧ (∀ m f kw v inst,
       m ∈ all_models → f ∈ fields m → kw !! name f = Some v →
       sqlmodel_init m clock kw = Ok inst →
       if table m then inst !! name f = Some v
       else ∃ v', validate_field f v = inr v' ∧ inst !! name f = Some v')
  ∧ (∀ m clock' kw inst,
       m ∈ all_models → sqlmodel_init m clock kw = Ok inst →
       sqlmodel_init m clock' inst = Ok inst).
Proof.
  pose proof User_in_models as HU. pose proof IBISWorldReport_in_models as HR.
  split; [|split; [|split; [|split; [|split]]]].
  - intros m f d kw Hm Hf Hd Hkw. split.
    + intros inst. by apply default_applied.
    + intros errs e. unfold sqlmodel_init.
      destruct (table m); [discriminate|]. unfold model_validate.
      intros Herrs Hin.
      assert ((name f, e) ∈ (validate_fields clock (fields m) kw).1) as Hmem.
      { destruct (validate_fields clock (fields m) kw) as [[|x errs'] dct];
          [discriminate|]. injection Herrs as <-. done. }
      apply validate_fields_errs in Hmem as (g & Hg & Hn & Ho).
      rewrite (field_by_name (fields m) g f (fields_NoDup _ Hm) Hg Hf Hn) in Ho.
      rewrite (field_outcome_omitted clock kw f d Hkw
                 (field_default_declared clock f d Hd)) in Ho.
      discriminate.
  - intros kw. exists (sqlmodel_table_construct User clock kw).
    split; [reflexivity|]. split; intros Hkw.
    + apply (default_applied clock kw User User_role _ _ HU);
        [in_fields | done | done | done].
    + apply (default_applied clock kw User User_is_active _ _ HU);
        [in_fields | done | done | done].
  - intros kw. exists (sqlmodel_table_construct IBISWorldReport clock kw).
    split; [reflexivity|]. split; intros Hkw.
    + apply (default_applied clock kw IBISWorldReport
               IBISWorldReport_access_count _ _ HR);
        [in_fields | done | done | done].
    + apply (default_applied clock kw IBISWorldReport
               IBISWorldReport_is_cached _ _ HR);
        [in_fields | done | done | done].
  - intros u e fn p Hu He Hfn Hp.
    destruct (UserCreate_accepts clock u e fn p Hu He Hfn Hp) as [inst Hok].
    exists inst. split; [done|].
    apply (default_applied clock (create_kw u e fn p) UserCreate
             (fld "role" (TEnum UserRole_cls)
                  [default (VEnum (EUserRole OFFICIAL))])
             _ _ UserCreate_in_models); [in_fields | done | done | done].
  - intros m f kw v inst Hm Hf Hkw. unfold sqlmodel_init.
    destruct (table m).
    + intros [= <-]. by apply supplied_kept.
    + intros Hok.
      destruct (model_validate_Ok_field clock kw m inst f
                  (fields_NoDup _ Hm) Hok Hf) as (v' & Ho & Hv').
      rewrite (field_outcome_supplied clock kw f v Hkw) in Ho. eauto.
  - intros m clock' kw inst Hm. unfold sqlmodel_init.
    destruct (table m).
    + intros [= <-]. f_equal. by apply sqlmodel_table_construct_again.
    + intros Hok.
      destruct (validate_fields_fixed clock' (fields m) inst) as (d & Hd & Hdk).
      { intros f Hf.
        destruct (model_validate_Ok_field clock kw m inst f
                    (fields_NoDup _ Hm) Hok Hf) as (v & Ho & Hv).
        exists v. split; [done|]. unfold field_outcome in Ho.
        destruct (kw !! name f) as [v0|].
        - by apply (validate_field_idempotent f v0).
        - destruct (field_default clock f) as [v0|] eqn:Hdef; [|discriminate].
          injection Ho as <-. by apply (defaults_valid clock m). }
      unfold model_validate. rewrite Hd. f_equal. apply map_eq. intros k.
      rewrite Hdk. case_decide as Hk; [done|].
      symmetry. by apply (validated_outside m clock kw).
Qed.

Lemma defaults_at_construction_witness :
  ∃ inst, sqlmodel_init UserCreate (λ _, 0)
            (create_kw "carol" "carol@example.org" "Carol Diaz" "s3cretpw")
          = Ok inst
          ∧ inst !! "role" = Some (VEnum (EUserRole OFFICIAL)).
Proof.
  apply (proj1 (proj2 (proj2 (proj2 (defaults_at_construction (λ _, 0))))));
    vm_compute; lia.
Defined.

(** * The column store *)

(** ** JSON text *)










(** ** Rows *)






(** ** Create and read *)


(** ** IBISWorldReport.tags through the JSON column *)



(** ** Decimals *)















(** ** Decimal places *)


